(** * Strapi admin, authentication pages: Register and ResetPassword

    A shallow embedding of the form-submission logic of

      - [pages/Auth/components/Register.tsx]      (normalizeData, the two
        yup schemas, handleRegisterAdmin, handleRegisterUser, the onSubmit
        callback, the registration-info effect and the route guard), and
      - [pages/Auth/components/ResetPassword.tsx] (the yup schema,
        handleSubmit, the onSubmit callback and the query guard).

    JavaScript strings are sequences of UTF-16 code units.  Here a [string]
    stands for a JavaScript string all of whose code units are below 256
    (one [ascii] per code unit), so that [String.length] is [.length].
    JavaScript objects used as records are finite maps from keys to values.
    Side effects (network calls, navigation, state setters) are recorded in
    the order in which the code performs them. *)

From Stdlib Require Import String Ascii List Bool Arith Lia DecimalString.
From stdpp Require Import gmap strings list fin_maps.

Local Open Scope string_scope.

(** ** JavaScript values and built-ins *)

Module JS.

(** The values that occur in the form data. *)
Inductive jsval :=
| JUndefined
| JNull
| JBool (b : bool)
| JString (s : string).

#[global] Instance jsval_eq_dec : EqDecision jsval.
Proof. solve_decision. Defined.

(** [typeof value === 'string'] *)
Definition isString (v : jsval) : bool :=
  match v with JString _ => true | _ => false end.

(** ToBoolean: what [if (v)], [!v] and [v || w] test. *)
Definition toBoolean (v : jsval) : bool :=
  match v with
  | JUndefined | JNull => false
  | JBool b => b
  | JString s => negb (String.eqb s "")
  end.

(** [v || w] *)
Definition or (v w : jsval) : jsval := if toBoolean v then v else w.

(** [obj[key]]: a missing key reads as [undefined]. *)
Definition get (o : gmap string jsval) (key : string) : jsval :=
  default JUndefined (o !! key).

(** [lo <= n && n <= hi] on code units. *)
Definition inRange (lo hi n : nat) : bool := Nat.leb lo n && Nat.leb n hi.

(** WhiteSpace and LineTerminator code units below 256:
    TAB, LF, VT, FF, CR, SP and NBSP. *)
Definition isWhiteSpace (c : ascii) : bool :=
  let n := nat_of_ascii c in
  inRange 9 13 n || Nat.eqb n 32 || Nat.eqb n 160.

Fixpoint trimStart (s : string) : string :=
  match s with
  | EmptyString => EmptyString
  | String c s' => if isWhiteSpace c then trimStart s' else s
  end.

Fixpoint trimEnd (s : string) : string :=
  match s with
  | EmptyString => EmptyString
  | String c s' =>
      match trimEnd s' with
      | EmptyString => if isWhiteSpace c then EmptyString else String c EmptyString
      | t => String c t
      end
  end.

(** [String.prototype.trim] *)
Definition trim (s : string) : string := trimEnd (trimStart s).

(** Upper-case letters below 256: A-Z, and U+00C0..U+00DE without the
    multiplication sign U+00D7. *)
Definition isUpper (c : ascii) : bool :=
  let n := nat_of_ascii c in
  inRange 65 90 n || (inRange 192 222 n && negb (Nat.eqb n 215)).

Definition lowerChar (c : ascii) : ascii :=
  if isUpper c then ascii_of_nat (nat_of_ascii c + 32) else c.

(** [String.prototype.toLowerCase] *)
Fixpoint toLowerCase (s : string) : string :=
  match s with
  | EmptyString => EmptyString
  | String c s' => String (lowerChar c) (toLowerCase s')
  end.

(** [s.search(/[lo-hi]/) !== -1] for a one-range character class. *)
Fixpoint searchRange (lo hi : nat) (s : string) : bool :=
  match s with
  | EmptyString => false
  | String c s' =>
      inRange lo hi (nat_of_ascii c) || searchRange lo hi s'
  end.

(** The three patterns of the password rule: [/[a-z]/], [/[A-Z]/], [/\d/]. *)
Definition re_lowercase : string -> bool := searchRange 97 122.
Definition re_uppercase : string -> bool := searchRange 65 90.
Definition re_digit : string -> bool := searchRange 48 57.

(** Characters that [encodeURIComponent] leaves alone:
    A-Z a-z 0-9 - _ . ! ~ * ' ( ) *)
Definition isUriUnreserved (c : ascii) : bool :=
  let n := nat_of_ascii c in
  inRange 65 90 n || inRange 97 122 n || inRange 48 57 n ||
  existsb (Nat.eqb n) [45; 95; 46; 33; 126; 42; 39; 40; 41].

Definition hexDigit (n : nat) : ascii :=
  if Nat.ltb n 10 then ascii_of_nat (48 + n) else ascii_of_nat (55 + n).

(** One escaped octet, [%XX] with upper-case hexadecimal digits. *)
Definition percent (n : nat) (rest : string) : string :=
  String "%" (String (hexDigit (n / 16)) (String (hexDigit (n mod 16)) rest)).

(** [encodeURIComponent]: every other code unit is replaced by the escape
    of its UTF-8 encoding, one octet below 128 and two octets from 128 to
    255. *)
Fixpoint encodeURIComponent (s : string) : string :=
  match s with
  | EmptyString => EmptyString
  | String c s' =>
      let n := nat_of_ascii c in
      let rest := encodeURIComponent s' in
      if isUriUnreserved c then String c rest
      else if Nat.ltb n 128 then percent n rest
      else percent (192 + n / 64) (percent (128 + n mod 64) rest)
  end.

(** [`${b}`] for an optional boolean. *)
Definition templateBool (b : option bool) : string :=
  match b with
  | Some true => "true"
  | Some false => "false"
  | None => "undefined"
  end.

End JS.
Import JS.

(** ** Register.tsx: the form values and normalizeData *)

(** interface RegisterFormValues *)
Record RegisterFormValues := {
  firstname : string;
  lastname : string;
  email : string;
  password : string;
  confirmPassword : string;
  registrationToken : option string;
  news : bool;
}.

Definition optString (o : option string) : jsval :=
  match o with Some s => JString s | None => JUndefined end.

(** [Object.entries(data)], in the key order of the form's initialValues. *)
Definition entries (data : RegisterFormValues) : list (string * jsval) :=
  [ ("firstname", JString (firstname data));
    ("lastname", JString (lastname data));
    ("email", JString (email data));
    ("password", JString (password data));
    ("confirmPassword", JString (confirmPassword data));
    ("registrationToken", optString (registrationToken data));
    ("news", JBool (news data)) ].

(** [['password', 'confirmPassword'].includes(key)] *)
Definition isPasswordKey (key : string) : bool :=
  existsb (String.eqb key) ["password"; "confirmPassword"].

(** [value.trim()] on a value known to be a string. *)
Definition trimValue (value : jsval) : jsval :=
  match value with JString s => JString (trim s) | _ => value end.

(** The reducer of normalizeData. *)
Definition normalizeStep (acc : gmap string jsval) (kv : string * jsval)
  : gmap string jsval :=
  let '(key, value) := kv in
  if negb (isPasswordKey key) && isString value then
    let acc := <[key := trimValue value]> acc in
    if String.eqb key "lastname"
    then <[key := JS.or value JUndefined]> acc
    else acc
  else <[key := value]> acc.

Definition normalizeEntries (es : list (string * jsval)) : gmap string jsval :=
  fold_left normalizeStep es ∅.

Definition normalizeData (data : RegisterFormValues) : gmap string jsval :=
  normalizeEntries (entries data).

(** ** The part of yup (0.32) that the schemas use

    yup is an external library; this is its documented behaviour for string
    schemas inside an object schema, validated with [abortEarly: false]:
    the object is cast field by field, then every field runs its type and
    [oneOf] checks and, when these pass, all of its tests in the order in
    which the chain added them.  Every failing test contributes one error
    (path and message) to [err.inner]. *)

Module Yup.

(** react-intl message descriptors, the objects given as messages. *)
Record MessageDescriptor := {
  id : string;
  defaultMessage : string;
  values : list (string * nat);
}.

#[global] Instance MessageDescriptor_eq_dec : EqDecision MessageDescriptor.
Proof. solve_decision. Defined.

(** A yup message is whatever the schema was given: an object, or one of
    yup's own locale strings (kept as the template, before the path is
    filled in). *)
Inductive Message :=
| MObject (m : MessageDescriptor)
| MString (template : string).

#[global] Instance Message_eq_dec : EqDecision Message.
Proof. solve_decision. Defined.

(** A test: its name, its message and the predicate, which receives the
    value and the parent object (against which [yup.ref] is resolved). *)
Record Test := {
  name : string;
  message : Message;
  test : jsval -> gmap string jsval -> bool;
}.

(** Members of a [oneOf] list. *)
Inductive Valid :=
| VRef (key : string)
| VValue (v : jsval).

Record StringSchema := {
  transforms : list (jsval -> jsval);
  strict_ : bool;
  nullable_ : bool;
  whitelist : option (list Valid * Message);
  tests : list Test;
}.

(** [value == null] *)
Definition isAbsent (v : jsval) : bool :=
  match v with JUndefined | JNull => true | _ => false end.

(** The transform every string schema starts with: a string is kept,
    another present value is replaced by its [toString()]. *)
Definition toStringTransform (v : jsval) : jsval :=
  match v with
  | JBool b => JString (if b then "true" else "false")
  | _ => v
  end.

(** [yup.string()] *)
Definition string : StringSchema :=
  {| transforms := [toStringTransform]; strict_ := false; nullable_ := false;
     whitelist := None; tests := [] |}.

(** [schema.transform(fn)] *)
Definition transform (fn : jsval -> jsval) (s : StringSchema) : StringSchema :=
  {| transforms := transforms s ++ [fn]; strict_ := strict_ s;
     nullable_ := nullable_ s; whitelist := whitelist s; tests := tests s |}.

(** [schema.test(opts)]: an exclusive test replaces the tests of its
    name; the test is added at the end. *)
Definition addTest (exclusive : bool) (t : Test) (s : StringSchema) : StringSchema :=
  {| transforms := transforms s; strict_ := strict_ s;
     nullable_ := nullable_ s; whitelist := whitelist s;
     tests := List.filter (fun t' => negb (exclusive && String.eqb (name t') (name t)))
                          (tests s) ++ [t] |}.

Definition onString (f : String.string -> bool) (v : jsval) : bool :=
  match v with JString s => f s | _ => false end.

(** [.required(message)]: for strings, present and not empty. *)
Definition required (msg : MessageDescriptor) : StringSchema -> StringSchema :=
  addTest true {| name := "required"; message := MObject msg;
                  test := fun v _ => onString (fun s => negb (String.eqb s "")) v |}.

(** [.min(n, message)] *)
Definition min (n : nat) (msg : MessageDescriptor) : StringSchema -> StringSchema :=
  addTest true {| name := "min"; message := MObject msg;
                  test := fun v _ => isAbsent v
                                     || onString (fun s => Nat.leb n (String.length s)) v |}.

(** [.matches(regex, { message, name, excludeEmptyString })]; the regex
    is given by what [value.search(regex) !== -1] answers. *)
Definition matchesWith (testName : String.string) (excludeEmptyString : bool)
    (regex : String.string -> bool) (msg : MessageDescriptor)
  : StringSchema -> StringSchema :=
  addTest false {| name := testName; message := MObject msg;
                   test := fun v _ =>
                     isAbsent v
                     || onString (fun s => (String.eqb s "" && excludeEmptyString)
                                           || regex s) v |}.

Definition matches := matchesWith "matches" false.

(** [.email(message)], over yup's own pattern [rEmail]. *)
Definition email (rEmail : String.string -> bool) := matchesWith "email" true rEmail.

(** [.trim()], with yup's own message. *)
Definition trim (s : StringSchema) : StringSchema :=
  addTest false {| name := "trim";
                   message := MString "${path} must be a trimmed string";
                   test := fun v _ =>
                     isAbsent v || onString (fun s => String.eqb s (JS.trim s)) v |}
    (transform (fun v => match v with JString s => JString (JS.trim s) | _ => v end) s).

(** [.lowercase(message)] *)
Definition lowercase (msg : MessageDescriptor) (s : StringSchema) : StringSchema :=
  addTest true {| name := "string_case"; message := MObject msg;
                  test := fun v _ =>
                    isAbsent v || onString (fun s => String.eqb s (toLowerCase s)) v |}
    (transform (fun v => match v with JString s => JString (toLowerCase s) | _ => v end) s).

(** [.strict()] *)
Definition strict (s : StringSchema) : StringSchema :=
  {| transforms := transforms s; strict_ := true; nullable_ := nullable_ s;
     whitelist := whitelist s; tests := tests s |}.

(** [.nullable()] *)
Definition nullable (s : StringSchema) : StringSchema :=
  {| transforms := transforms s; strict_ := strict_ s; nullable_ := true;
     whitelist := whitelist s; tests := tests s |}.

(** [.oneOf(valids, message)] *)
Definition oneOf (valids : list Valid) (msg : MessageDescriptor) (s : StringSchema)
  : StringSchema :=
  {| transforms := transforms s; strict_ := strict_ s; nullable_ := nullable_ s;
     whitelist := Some (valids, MObject msg); tests := tests s |}.

(** [schema.isType(v)] *)
Definition isType (s : StringSchema) (v : jsval) : bool :=
  match v with
  | JString _ => true
  | JNull => nullable_ s
  | _ => false
  end.

(** The type check that precedes the tests; [undefined] passes. *)
Definition typeError (s : StringSchema) : Test :=
  {| name := "typeError";
     message := MString "${path} must be a `string` type";
     test := fun v _ => match v with JUndefined => true | _ => isType s v end |}.

(** The [oneOf] check; [undefined] passes, a reference is resolved
    against the parent. *)
Definition whitelistError (s : StringSchema) : list Test :=
  match whitelist s with
  | None => []
  | Some (valids, msg) =>
      [ {| name := "oneOf"; message := msg;
           test := fun v parent =>
             match v with
             | JUndefined => true
             | _ => existsb (fun w => match w with
                                      | VRef key => bool_decide (get parent key = v)
                                      | VValue x => bool_decide (x = v)
                                      end) valids
             end |} ]
  end.

(** [schema.cast(value)]: [undefined] is left alone, another value goes
    through the transforms in order. *)
Definition cast (s : StringSchema) (v : jsval) : jsval :=
  match v with
  | JUndefined => JUndefined
  | _ => fold_left (fun acc fn => fn acc) (transforms s) v
  end.

(** runTests without [endEarly]: the messages of the failing tests, in
    the order of the tests. *)
Definition runTests (ts : list Test) (v : jsval) (parent : gmap String.string jsval)
  : list Message :=
  message <$> List.filter (fun t => negb (test t v parent)) ts.

(** Validation of one field, already cast: the tests run only when the
    type and [oneOf] checks raise nothing. *)
Definition validateField (s : StringSchema) (v : jsval)
    (parent : gmap String.string jsval) : list Message :=
  match runTests (typeError s :: whitelistError s) v parent with
  | [] => runTests (tests s) v parent
  | errs => errs
  end.

(** [yup.object().shape({...})]: the fields in the order they are
    written. *)
Definition ObjectSchema := list (String.string * StringSchema).

(** The cast of the object during validation: a strict field keeps its
    value, another field is cast; a field whose result is [undefined] is
    left out; keys without a field are kept. *)
Definition castValue (field : StringSchema) (v : jsval) : jsval :=
  if strict_ field then v else cast field v.

Definition castField (value : gmap String.string jsval)
    (acc : gmap String.string jsval) (f : String.string * StringSchema)
  : gmap String.string jsval :=
  let '(prop, field) := f in
  let fieldValue := castValue field (get value prop) in
  match fieldValue with
  | JUndefined => delete prop acc
  | _ => <[prop := fieldValue]> acc
  end.

Definition castObject (schema : ObjectSchema) (value : gmap String.string jsval)
  : gmap String.string jsval :=
  fold_left (castField value) schema value.

(** What the cast object holds under [key], read off the schema: the
    cast of the last field of that name, or else what was there. *)
Fixpoint castLookup (value : gmap String.string jsval) (schema : ObjectSchema)
    (key : String.string) (dflt : jsval) : jsval :=
  match schema with
  | [] => dflt
  | (prop, field) :: rest =>
      castLookup value rest key
        (if String.eqb key prop then castValue field (get value prop) else dflt)
  end.

(** [schema.validate(value, { abortEarly: false })]: the empty list when
    the promise resolves, otherwise [err.inner] of the ValidationError it
    rejects with, as pairs of path and message, fields in schema order. *)
Definition validate (schema : ObjectSchema) (value : gmap String.string jsval)
  : list (String.string * Message) :=
  let value' := castObject schema value in
  flat_map (fun '(prop, field) =>
              pair prop <$> validateField field (get value' prop) value')
           schema.

End Yup.

Notation "s |> f" := (f s) (at level 45, left associativity, only parsing).

(** ** What the pages share: errors, responses and the recorded effects *)

(** An error of a query or mutation (BaseQueryError | SerializedError):
    the two properties the pages read. *)
Record QueryError := {
  error_name : option string;
  error_message : option string;
}.

(** [{ data } | { error }], told apart by ['data' in res]. *)
Inductive Response (D : Type) :=
| ResData (data : D)
| ResError (error : QueryError).
Arguments ResData {D} data.
Arguments ResError {D} error.

Record Role := { code : string }.

(** RegisterAdmin.Response['data']: the token and [user.roles]. *)
Record RegisterAdminData := {
  admin_token : string;
  user_roles : option (list Role);
}.

(** Register.Response['data'] and ResetPassword.Response['data']. *)
Record TokenData := { token : string }.

(** GetRegistrationInfo.Response['data'] *)
Record RegistrationInfo := {
  info_firstname : option string;
  info_lastname : option string;
  info_email : option string;
}.

(** Register.Request['body'] *)
Record RegisterUserBody := {
  userInfo : gmap string jsval;
  body_registrationToken : jsval;
}.

(** ResetPassword.Request['body'] *)
Record ResetPasswordBody := {
  body_password : string;
  resetPasswordToken : jsval;
}.

(** The argument of [navigate]: a string, or [{ pathname, search }]. *)
Inductive To :=
| ToString (to : string)
| ToPath (pathname search : string).

Inductive Effect :=
| CallRegisterAdmin (body : gmap string jsval)
| CallRegisterUser (body : RegisterUserBody)
| CallResetPassword (body : ResetPasswordBody)
| SetToken (t : string)
| NavigateTo (to : To)
| SetErrors (errors : gmap string string)
| SetApiError (msg : string)
| SetSubmitCount (n : nat)
| TrackUsage (event : string) (properties : list (string * string))
| AuthSetGuidedTourSkipped
| SetSkipped (b : bool)
| EnableNpsSurvey
| ToggleNotification (type msg : string).

Definition isNetworkCall (e : Effect) : bool :=
  match e with
  | CallRegisterAdmin _ | CallRegisterUser _ | CallResetPassword _ => true
  | _ => false
  end.

Definition isNavigation (e : Effect) : bool :=
  match e with NavigateTo _ => true | _ => false end.

(** What a component returns: a redirect, or its form. *)
Inductive Element :=
| Navigate (to : string)
| RegisterForm (isAdminRegistration : bool)
| ResetPasswordForm.

(** [useMatch('/auth/:authType')] *)
Record PathMatch := { authType : option string }.

(** lodash [omit(object, paths)] *)
Definition omit (o : gmap string jsval) (paths : list string) : gmap string jsval :=
  fold_left (fun acc k => delete k acc) paths o.

(** [n.toString()] *)
Definition natToString (n : nat) : string :=
  DecimalString.NilEmpty.string_of_uint (Nat.to_uint n).

(** The ids exported by the helper package as [translatedErrors]. *)
Module TE.
Record t := {
  email : string;
  lowercase : string;
  minLength : string;
  required : string;
}.
End TE.

(** ** The message descriptors and the three schemas *)

Section Schemas.

Variable translatedErrors : TE.t.
(** yup's pattern for e-mail addresses, by what [search] answers. *)
Variable rEmail : string -> bool.

Definition msg (i d : string) : Yup.MessageDescriptor :=
  {| Yup.id := i; Yup.defaultMessage := d; Yup.values := [] |}.

Definition msgFirstnameRequired :=
  msg (TE.required translatedErrors) "Firstname is required".
Definition msgMinLength : Yup.MessageDescriptor :=
  {| Yup.id := TE.minLength translatedErrors;
     Yup.defaultMessage := "Password must be at least 8 characters";
     Yup.values := [("min", 8)] |}.
Definition msgLowercase :=
  msg "components.Input.error.contain.lowercase"
      "Password must contain at least 1 lowercase letter".
Definition msgUppercase :=
  msg "components.Input.error.contain.uppercase"
      "Password must contain at least 1 uppercase letter".
Definition msgNumber :=
  msg "components.Input.error.contain.number"
      "Password must contain at least 1 number".
Definition msgPasswordRequired :=
  msg (TE.required translatedErrors) "Password is required".
Definition msgConfirmRequired :=
  msg (TE.required translatedErrors) "Confirm password is required".
Definition msgNoMatch :=
  msg "components.Input.error.password.noMatch" "Passwords must match".
Definition msgTokenRequired :=
  msg (TE.required translatedErrors) "Registration token is required".
Definition msgEmail :=
  msg (TE.email translatedErrors) "Not a valid email".
Definition msgEmailLowercase :=
  msg (TE.lowercase translatedErrors) "Email must be lowercase".
Definition msgEmailRequired :=
  msg (TE.required translatedErrors) "Email is required".

Definition REGISTER_USER_SCHEMA : Yup.ObjectSchema :=
  [ ("firstname", Yup.string |> Yup.trim |> Yup.required msgFirstnameRequired);
    ("lastname", Yup.string |> Yup.nullable);
    ("password",
      Yup.string
      |> Yup.min 8 msgMinLength
      |> Yup.matches re_lowercase msgLowercase
      |> Yup.matches re_uppercase msgUppercase
      |> Yup.matches re_digit msgNumber
      |> Yup.required msgPasswordRequired);
    ("confirmPassword",
      Yup.string
      |> Yup.required msgConfirmRequired
      |> Yup.oneOf [Yup.VRef "password"; Yup.VValue JNull] msgNoMatch);
    ("registrationToken", Yup.string |> Yup.required msgTokenRequired) ].

Definition REGISTER_ADMIN_SCHEMA : Yup.ObjectSchema :=
  [ ("firstname", Yup.string |> Yup.trim |> Yup.required msgFirstnameRequired);
    ("lastname", Yup.string |> Yup.nullable);
    ("password",
      Yup.string
      |> Yup.min 8 msgMinLength
      |> Yup.matches re_lowercase msgLowercase
      |> Yup.matches re_uppercase msgUppercase
      |> Yup.matches re_digit msgNumber
      |> Yup.required msgPasswordRequired);
    ("confirmPassword",
      Yup.string
      |> Yup.required msgConfirmRequired
      |> Yup.oneOf [Yup.VRef "password"; Yup.VValue JNull] msgNoMatch);
    ("email",
      Yup.string
      |> Yup.email rEmail msgEmail
      |> Yup.strict
      |> Yup.lowercase msgEmailLowercase
      |> Yup.required msgEmailRequired) ].

Definition RESET_PASSWORD_SCHEMA : Yup.ObjectSchema :=
  [ ("password",
      Yup.string
      |> Yup.min 8 msgMinLength
      |> Yup.matches re_lowercase msgLowercase
      |> Yup.matches re_uppercase msgUppercase
      |> Yup.matches re_digit msgNumber
      |> Yup.required msgPasswordRequired);
    ("confirmPassword",
      Yup.string
      |> Yup.required msgConfirmRequired
      |> Yup.oneOf [Yup.VRef "password"; Yup.VValue JNull] msgNoMatch) ].

(** *** The schemas read field by field

    The same rules as ordered lists: each entry is the message of a test
    and the condition under which a string passes it. *)

Definition Chain := list (Yup.MessageDescriptor * (string -> bool)).

(** The messages of the entries that [s] fails, in the order of the chain. *)
Definition failing (chain : Chain) (s : string) : list Yup.MessageDescriptor :=
  fst <$> List.filter (fun c => negb (c.2 s)) chain.

Definition notEmpty (s : string) : bool := negb (String.eqb s "").

(** The four checks of the password rule. *)
Definition passwordChecks : Chain :=
  [ (msgMinLength, fun s => Nat.leb 8 (String.length s));
    (msgLowercase, re_lowercase);
    (msgUppercase, re_uppercase);
    (msgNumber, re_digit) ].

(** The whole chain of the password field. *)
Definition passwordChain : Chain :=
  (passwordChecks ++ [ (msgPasswordRequired, notEmpty) ])%list.

(** The chain of the email field. *)
Definition emailChain : Chain :=
  [ (msgEmail, fun s => String.eqb s "" || rEmail s);
    (msgEmailLowercase, fun s => String.eqb s (toLowerCase s));
    (msgEmailRequired, notEmpty) ].

(** The confirmPassword field: [oneOf] first, then [required]. *)
Definition confirmPasswordErrors (pw cp : string) : list Yup.MessageDescriptor :=
  if negb (String.eqb pw cp) then [msgNoMatch]
  else failing [ (msgConfirmRequired, notEmpty) ] cp.

Definition tokenErrors (t : option string) : list Yup.MessageDescriptor :=
  match t with
  | Some t => failing [ (msgTokenRequired, notEmpty) ] t
  | None => [msgTokenRequired]
  end.

Definition at_ (path : string) (ms : list Yup.MessageDescriptor)
  : list (string * Yup.Message) :=
  (fun m => (path, Yup.MObject m)) <$> ms.

(** The errors of the normalized registration values. *)
Definition registerErrors (isAdminRegistration : bool) (data : RegisterFormValues)
  : list (string * Yup.Message) :=
  (at_ "firstname" (failing [ (msgFirstnameRequired, notEmpty) ] (trim (firstname data)))
   ++ at_ "password" (failing passwordChain (password data))
   ++ at_ "confirmPassword" (confirmPasswordErrors (password data) (confirmPassword data))
   ++ (if isAdminRegistration
       then at_ "email" (failing emailChain (trim (email data)))
       else at_ "registrationToken" (tokenErrors (trim <$> registrationToken data))))%list.

End Schemas.

(** ** Register.tsx: the component *)

Section Register.

Variable translatedErrors : TE.t.
Variable rEmail : string -> bool.
(** react-intl's [formatMessage] and the two formatters of
    useAPIErrorHandler. *)
Variable formatMessage : Yup.MessageDescriptor -> string.
Variable formatAPIError : QueryError -> string.
Variable formatValidationErrors : QueryError -> gmap string string.
(** The type guard of utils/baseQuery. *)
Variable isBaseQueryError : QueryError -> bool.
(** The service: what each endpoint answers to a request. *)
Variable registerAdmin : gmap string jsval -> Response RegisterAdminData.
Variable registerUser : RegisterUserBody -> Response TokenData.
Variable getRegistrationInfo : string -> Response RegistrationInfo.

(** [useGetRegistrationInfoQuery(registrationToken, { skip: !registrationToken })]:
    no request, hence neither data nor error, when the token is missing
    or empty. *)
Definition useGetRegistrationInfoQuery (registrationToken : option string)
  : option (Response RegistrationInfo) :=
  match registrationToken with
  | Some t => if toBoolean (JString t) then Some (getRegistrationInfo t) else None
  | None => None
  end.

Definition queryError {D} (q : option (Response D)) : option QueryError :=
  match q with Some (ResError e) => Some e | _ => None end.

Definition queryData {D} (q : option (Response D)) : option D :=
  match q with Some (ResData d) => Some d | _ => None end.

(** The effect on [error]. *)
Definition registrationInfoEffect (error : option QueryError) : list Effect :=
  match error with
  | Some error =>
      let message :=
        if isBaseQueryError error then formatAPIError error
        else default "" (error_message error) in
      [ ToggleNotification "warning" message;
        NavigateTo (ToString ("/auth/oops?info=" ++ encodeURIComponent message)%string) ]
  | None => []
  end.

(** The effects of mounting the view with the given query parameter. *)
Definition mountEffects (registrationToken : option string) : list Effect :=
  registrationInfoEffect (queryError (useGetRegistrationInfoQuery registrationToken)).

(** [roles.find(({ code }) => code === 'strapi-super-admin')] *)
Definition findSuperAdmin (roles : list Role) : option Role :=
  List.find (fun r => String.eqb (code r) "strapi-super-admin") roles.

(** The argument is destructured as [{ news, ...body }]. *)
Definition handleRegisterAdmin (arg : gmap string jsval) : list Effect :=
  let news := get arg "news" in
  let body := delete "news" arg in
  CallRegisterAdmin body ::
  match registerAdmin body with
  | ResData data =>
      SetToken (admin_token data) ::
      match user_roles data with
      | Some roles =>
          match findSuperAdmin roles with
          | Some _ => [ AuthSetGuidedTourSkipped; SetSkipped false;
                        TrackUsage "didLaunchGuidedtour" [] ]
          | None => []
          end
      | None => []
      end ++
      (if toBoolean news
       then [ EnableNpsSurvey;
              NavigateTo (ToPath "/usecase" ("?hasAdmin=" ++ templateBool (Some true))) ]
       else [ NavigateTo (ToString "/") ])
  | ResError error =>
      if isBaseQueryError error then
        TrackUsage "didNotCreateFirstAdmin" [] ::
        (if bool_decide (error_name error = Some "ValidationError")
         then [ SetErrors (formatValidationErrors error) ]
         else [ SetApiError (formatAPIError error) ])
      else []
  end.

(** The argument [{ news, ...body }] is given as its two parts. *)
Definition handleRegisterUser (hasAdmin : option bool)
    (body : RegisterUserBody) (news : jsval) : list Effect :=
  CallRegisterUser body ::
  match registerUser body with
  | ResData data =>
      SetToken (token data) ::
      (if toBoolean news
       then [ EnableNpsSurvey;
              NavigateTo (ToPath "/usecase" ("?hasAdmin=" ++ templateBool hasAdmin)) ]
       else [ NavigateTo (ToString "/") ])
  | ResError error =>
      if isBaseQueryError error then
        TrackUsage "didNotCreateFirstAdmin" [] ::
        (if bool_decide (error_name error = Some "ValidationError")
         then [ SetErrors (formatValidationErrors error) ]
         else [ SetApiError (formatAPIError error) ])
      else []
  end.

(** The guard and the choice of the variant. *)
Definition Register (match_ : option PathMatch) : Element :=
  match match_ with
  | None => Navigate "/"
  | Some m =>
      if negb (bool_decide (authType m = Some "register"))
         && negb (bool_decide (authType m = Some "register-admin"))
      then Navigate "/"
      else RegisterForm (bool_decide (authType m = Some "register-admin"))
  end.

Definition schema (isAdminRegistration : bool) : Yup.ObjectSchema :=
  if isAdminRegistration
  then REGISTER_ADMIN_SCHEMA translatedErrors rEmail
  else REGISTER_USER_SCHEMA translatedErrors.

(** The reducer over [err.inner] in the catch block. *)
Definition collectError (acc : gmap string string)
    (e : string * Yup.Message) : gmap string string :=
  let '(path, message) := e in
  match message with
  | Yup.MObject m =>
      if toBoolean (JString path) then <[path := formatMessage m]> acc else acc
  | Yup.MString _ => acc
  end.

Definition initialValues (userInfo : option RegistrationInfo)
    (registrationToken : option string) : RegisterFormValues :=
  {| firstname := default "" (userInfo ≫= info_firstname);
     lastname := default "" (userInfo ≫= info_lastname);
     email := default "" (userInfo ≫= info_email);
     password := "";
     confirmPassword := "";
     registrationToken :=
       match registrationToken with
       | Some t => if toBoolean (JString t) then Some t else None
       | None => None
       end;
     news := false |}.

(** The form's onSubmit, in the run in which nothing but [schema.validate]
    throws ([onSubmitRun] below has the other runs).  [schema.validate]
    resolves when [err.inner] would be empty and otherwise rejects with the
    ValidationError that the catch block reduces. *)
Definition onSubmit (isAdminRegistration : bool) (hasAdmin : option bool)
    (submitCount : nat) (data : RegisterFormValues) : list Effect :=
  let normalizedData := normalizeData data in
  match Yup.validate (schema isAdminRegistration) normalizedData with
  | [] =>
      (if Nat.ltb 0 submitCount && isAdminRegistration
       then [ TrackUsage "didSubmitWithErrorsFirstAdmin"
                         [("count", natToString submitCount)] ]
       else []) ++
      (if toBoolean (get normalizedData "registrationToken")
       then handleRegisterUser hasAdmin
              {| userInfo := omit normalizedData
                               ["registrationToken"; "confirmPassword"; "email"; "news"];
                 body_registrationToken := get normalizedData "registrationToken" |}
              (get normalizedData "news")
       else handleRegisterAdmin
              (omit normalizedData ["registrationToken"; "confirmPassword"]))
  | inner =>
      [ SetErrors (fold_left collectError inner ∅);
        SetSubmitCount (submitCount + 1) ]
  end.

(** The form's onSubmit with the catch path of any other exception: with
    [thrown = Some k] a step of the try block throws something that is not
    a yup ValidationError once the block has performed [k] of its effects
    (all of them, when it has no more than [k]); [thrown = None] is the run
    of [onSubmit].  What trackUsage or the
    awaited handleRegisterAdmin throws reaches the catch block, which then
    sets no errors and counts the attempt.  handleRegisterUser is not
    awaited: what it throws rejects its own promise and is not caught. *)
Definition onSubmitRun (thrown : option nat) (isAdminRegistration : bool)
    (hasAdmin : option bool) (submitCount : nat) (data : RegisterFormValues)
  : list Effect :=
  let normalizedData := normalizeData data in
  match Yup.validate (schema isAdminRegistration) normalizedData with
  | [] =>
      let tracked :=
        if Nat.ltb 0 submitCount && isAdminRegistration
        then [ TrackUsage "didSubmitWithErrorsFirstAdmin"
                          [("count", natToString submitCount)] ]
        else [] in
      let user :=
        handleRegisterUser hasAdmin
          {| userInfo := omit normalizedData
                           ["registrationToken"; "confirmPassword"; "email"; "news"];
             body_registrationToken := get normalizedData "registrationToken" |}
          (get normalizedData "news") in
      let admin :=
        handleRegisterAdmin
          (omit normalizedData ["registrationToken"; "confirmPassword"]) in
      match thrown with
      | None =>
          tracked ++
          (if toBoolean (get normalizedData "registrationToken") then user else admin)
      | Some k =>
          if Nat.ltb k (length tracked)
          then take k tracked ++ [ SetSubmitCount (submitCount + 1) ]
          else if toBoolean (get normalizedData "registrationToken")
               then tracked ++ take (k - length tracked) user
               else tracked ++ take (k - length tracked) admin
                    ++ [ SetSubmitCount (submitCount + 1) ]
      end
  | inner =>
      [ SetErrors (fold_left collectError inner ∅);
        SetSubmitCount (submitCount + 1) ]
  end.

End Register.

(** ** ResetPassword.tsx: the component *)

Module ResetPassword.

(** The form's values, as in its initialValues. *)
Record FormValues := {
  password : string;
  confirmPassword : string;
}.

Definition toObject (values : FormValues) : gmap string jsval :=
  <["confirmPassword" := JString (confirmPassword values)]>
    (<["password" := JString (password values)]> ∅).

(** [query.get(name)]: the parameter, or [null]. *)
Definition queryGet (param : option string) : jsval :=
  match param with Some s => JString s | None => JNull end.

(** Modelled from the spec: the Form component ([components/Form], which
    receives [validationSchema] and [onSubmit]) is not part of the two
    source files.  What it does with a submission, by section 4.2: it
    reports field errors, or it calls onSubmit. *)
Inductive Outcome :=
| Invalid (errors : gmap string Yup.Message)
| Submitted (effects : list Effect).

(** Modelled from the spec: the error state of the Form component.
    Section 4.1: the errors are a mapping of field name to the message of
    the first failing rule. *)
Definition firstError (acc : gmap string Yup.Message)
    (e : string * Yup.Message) : gmap string Yup.Message :=
  match acc !! e.1 with
  | Some _ => acc
  | None => <[e.1 := e.2]> acc
  end.

(** Modelled from the spec: the submit handler of the Form component.
    Section 4.2: on a submit trigger the validation schema is evaluated
    first; if the values are invalid the field errors are populated and
    nothing else happens; if they are valid onSubmit is called. *)
Definition Form_submit (validationSchema : Yup.ObjectSchema)
    (onSubmit : FormValues -> list Effect) (values : FormValues) : Outcome :=
  match Yup.validate validationSchema (toObject values) with
  | [] => Submitted (onSubmit values)
  | inner => Invalid (fold_left firstError inner ∅)
  end.

Section Component.

Variable translatedErrors : TE.t.
(** The service: what the endpoint answers to a request. *)
Variable resetPassword : ResetPasswordBody -> Response TokenData.

Definition handleSubmit (body : ResetPasswordBody) : list Effect :=
  CallResetPassword body ::
  match resetPassword body with
  | ResData data => [ SetToken (token data); NavigateTo (ToString "/") ]
  | ResError _ => []
  end.

(** The guard on the query parameter [code]. *)
Definition ResetPassword (code : option string) : Element :=
  if negb (toBoolean (queryGet code))
  then Navigate "/auth/login"
  else ResetPasswordForm.

(** The form's onSubmit. *)
Definition onSubmit (code : option string) (values : FormValues) : list Effect :=
  handleSubmit {| body_password := password values;
                  resetPasswordToken := queryGet code |}.

(** A submission of the rendered form. *)
Definition submit (code : option string) (values : FormValues) : Outcome :=
  Form_submit (RESET_PASSWORD_SCHEMA translatedErrors) (onSubmit code) values.

End Component.

End ResetPassword.

(** ** Reading the recorded effects and the collected errors *)

(** A test agrees with an entry of a chain: same message, and on strings
    the same answer. *)
Definition agrees (t : Yup.Test) (c : Yup.MessageDescriptor * (string -> bool)) : Prop :=
  Yup.message t = Yup.MObject c.1 /\
  forall s parent, Yup.test t (JString s) parent = c.2 s.

(** The object messages that [err.inner] holds for [path], in order. *)
Definition objectsAt (path : string) (inner : list (string * Yup.Message))
  : list Yup.MessageDescriptor :=
  omap (fun e => if String.eqb e.1 path
                 then match e.2 with Yup.MObject m => Some m | Yup.MString _ => None end
                 else None) inner.

Definition isSetErrors (e : Effect) : bool :=
  match e with SetErrors _ => true | _ => false end.

(** The request of the admin flow: the normalized values without
    registrationToken, confirmPassword and news. *)
Definition adminBody (data : RegisterFormValues) : gmap string jsval :=
  <["firstname" := JString (trim (firstname data))]>
    (<["lastname" := JS.or (JString (lastname data)) JUndefined]>
       (<["email" := JString (trim (email data))]>
          (<["password" := JString (password data)]> ∅))).

(** The request of the invitation flow: userInfo is the normalized values
    without registrationToken, confirmPassword, email and news. *)
Definition userBody (data : RegisterFormValues) : RegisterUserBody :=
  {| userInfo :=
       <["firstname" := JString (trim (firstname data))]>
         (<["lastname" := JS.or (JString (lastname data)) JUndefined]>
            (<["password" := JString (password data)]> ∅));
     body_registrationToken := optString (trim <$> registrationToken data) |}.

(** The argument handed to handleRegisterAdmin. *)
Definition adminArg (data : RegisterFormValues) : gmap string jsval :=
  <["news" := JBool (news data)]> (adminBody data).

(** [normalizedData.registrationToken] as a condition. *)
Definition hasToken (data : RegisterFormValues) : bool :=
  toBoolean (optString (trim <$> registrationToken data)).

(** The tracking call that precedes the request. *)
Definition trackSubmit (isAdminRegistration : bool) (submitCount : nat) : list Effect :=
  if Nat.ltb 0 submitCount && isAdminRegistration
  then [ TrackUsage "didSubmitWithErrorsFirstAdmin" [("count", natToString submitCount)] ]
  else [].

(** ** Sample collaborators, for the concrete instances below *)

Module Sample.

Definition translatedErrors : TE.t :=
  {| TE.email := "components.Input.error.validation.email";
     TE.lowercase := "components.Input.error.validation.lowercase";
     TE.minLength := "components.Input.error.validation.minLength";
     TE.required := "components.Input.error.validation.required" |}.

(** A stand-in for yup's pattern: some character is an at sign. *)
Definition rEmail : string -> bool := searchRange 64 64.

(** Formatting without translations: the default message. *)
Definition formatMessage (m : Yup.MessageDescriptor) : string :=
  Yup.defaultMessage m.

Definition formatAPIError (e : QueryError) : string :=
  default "" (error_message e).

Definition formatValidationErrors (e : QueryError) : gmap string string :=
  {[ "email" := default "" (error_message e) ]}.

(** utils/baseQuery: an error with a name. *)
Definition isBaseQueryError (e : QueryError) : bool :=
  bool_decide (is_Some (error_name e)).

Definition superAdmin : RegisterAdminData :=
  {| admin_token := "jwt"; user_roles := Some [ {| code := "strapi-super-admin" |} ] |}.

Definition registerAdmin (_ : gmap string jsval) : Response RegisterAdminData :=
  ResData superAdmin.

Definition registerUser (_ : RegisterUserBody) : Response TokenData :=
  ResData {| token := "jwt" |}.

Definition validationError : QueryError :=
  {| error_name := Some "ValidationError"; error_message := Some "Email already taken" |}.

Definition rejectAdmin (_ : gmap string jsval) : Response RegisterAdminData :=
  ResError validationError.

Definition rejectUser (_ : RegisterUserBody) : Response TokenData :=
  ResError validationError.

Definition getRegistrationInfo (_ : string) : Response RegistrationInfo :=
  ResError {| error_name := Some "ApplicationError"; error_message := Some "bad token" |}.

Definition resetPassword (_ : ResetPasswordBody) : Response TokenData :=
  ResData {| token := "jwt" |}.

Definition values (fn ln em pw cp : string) (t : option string) (n : bool)
  : RegisterFormValues :=
  {| firstname := fn; lastname := ln; email := em; password := pw;
     confirmPassword := cp; registrationToken := t; news := n |}.

(** A weak password that is also not repeated correctly. *)
Definition invalid : RegisterFormValues :=
  values "Ada" "" "ada@example.com" "abc" "abd" None false.

(** A password that fails the length, upper-case and digit checks. *)
Definition weak : RegisterFormValues :=
  values "Ada" "" "ada@example.com" "abc" "abc" None false.

(** Valid values of the first administrator, news checked. *)
Definition admin : RegisterFormValues :=
  values " Ada " "Lovelace" "ada@example.com" "Abcdef12" "Abcdef12" None true.

(** Valid values that carry a registration token. *)
Definition invited : RegisterFormValues :=
  values "Ada" "Lovelace" "ada@example.com" "Abcdef12" "Abcdef12" (Some "tok") false.

(** The registration form against a service that accepts. *)
Definition submit :=
  onSubmit translatedErrors rEmail formatMessage formatAPIError
           formatValidationErrors isBaseQueryError registerAdmin registerUser.

(** The registration form against a service that rejects. *)
Definition submitRejected :=
  onSubmit translatedErrors rEmail formatMessage formatAPIError
           formatValidationErrors isBaseQueryError rejectAdmin rejectUser.

(** The schema of a variant. *)
Definition schemaOf := schema translatedErrors rEmail.

(** A service that rejects the reset code. *)
Definition rejectReset (_ : ResetPasswordBody) : Response TokenData :=
  ResError {| error_name := Some "ApplicationError";
              error_message := Some "Incorrect code provided" |}.

(** Another stand-in for yup's pattern: an at sign and no white space.
    Like yup's anchored pattern it does not match an address that is
    followed by a space. *)
Definition rEmailNoSpace (s : string) : bool :=
  searchRange 64 64 s && negb (existsb isWhiteSpace (list_ascii_of_string s)).

(** Valid values of the first administrator, but for a space typed after
    the email address. *)
Definition padded : RegisterFormValues :=
  values "Ada" "Lovelace" "ada@example.com " "Abcdef12" "Abcdef12" None false.

End Sample.

(** ** Conditions and views used by the further properties *)

(** The form values as the object that onSubmit receives, before
    normalizeData. *)
Definition submittedValues (data : RegisterFormValues) : gmap string jsval :=
  list_to_map (entries data).

(** ResetPassword.tsx: [const [resetPassword, { error }] =
    useResetPasswordMutation()], the error of the mutation's last answer;
    [None] before a submission and after a success. *)
Definition mutationError (answer : option (Response TokenData)) : option QueryError :=
  match answer with Some (ResError e) => Some e | _ => None end.

(** ResetPassword.tsx: the alert that the view renders above the form when
    [error] is set. *)
Definition errorAlert (formatMessage : Yup.MessageDescriptor -> string)
    (formatAPIError : QueryError -> string) (isBaseQueryError : QueryError -> bool)
    (error : option QueryError) : option string :=
  match error with
  | Some error =>
      Some (if isBaseQueryError error then formatAPIError error
            else formatMessage {| Yup.id := "notification.error";
                                  Yup.defaultMessage := "An error occurred";
                                  Yup.values := [] |})
  | None => None
  end.

(** The password rule as one condition: the four checks of the chain. *)
Definition passwordOk (pw : string) : bool :=
  Nat.leb 8 (String.length pw) && re_lowercase pw && re_uppercase pw && re_digit pw.

(** The email rule of the admin schema as one condition. *)
Definition emailOk (rEmail : string -> bool) (s : string) : bool :=
  rEmail s && String.eqb s (toLowerCase s) && notEmpty s.

(** The effects by which a submission succeeds: the token is stored, the
    survey is enabled, the view navigates. *)
Definition isOutcome (e : Effect) : bool :=
  match e with
  | SetToken _ | EnableNpsSurvey | NavigateTo _ => true
  | _ => false
  end.

(** The effects that count attempts. *)
Definition isAttemptCount (e : Effect) : bool :=
  match e with
  | SetSubmitCount _ => true
  | TrackUsage event _ => String.eqb event "didSubmitWithErrorsFirstAdmin"
  | _ => false
  end.

(** The effects that tell the user about a failure. *)
Definition isErrorReport (e : Effect) : bool :=
  match e with
  | SetErrors _ | SetApiError _ => true
  | _ => false
  end.

(** The token in the answer to the request that the values lead to, when
    the answer is a success. *)
Definition responseToken
    (registerAdmin : gmap string jsval -> Response RegisterAdminData)
    (registerUser : RegisterUserBody -> Response TokenData)
    (data : RegisterFormValues) : option string :=
  if hasToken data
  then match registerUser (userBody data) with
       | ResData d => Some (token d)
       | ResError _ => None
       end
  else match registerAdmin (adminBody data) with
       | ResData d => Some (admin_token d)
       | ResError _ => None
       end.

(** The error in the answer to the request that the values lead to. *)
Definition responseError
    (registerAdmin : gmap string jsval -> Response RegisterAdminData)
    (registerUser : RegisterUserBody -> Response TokenData)
    (data : RegisterFormValues) : option QueryError :=
  if hasToken data
  then match registerUser (userBody data) with
       | ResData _ => None
       | ResError e => Some e
       end
  else match registerAdmin (adminBody data) with
       | ResData _ => None
       | ResError e => Some e
       end.

(** The effects that launch the guided tour. *)
Definition isGuidedTour (e : Effect) : bool :=
  match e with
  | AuthSetGuidedTourSkipped | SetSkipped _ => true
  | TrackUsage event _ => String.eqb event "didLaunchGuidedtour"
  | _ => false
  end.

(** The request that the values lead to. *)
Definition request (data : RegisterFormValues) : Effect :=
  if hasToken data then CallRegisterUser (userBody data)
  else CallRegisterAdmin (adminBody data).

(** What the reducer of normalizeData stores under [key] for [value]. *)
Definition normalizeValue (key : string) (value : jsval) : jsval :=
  if negb (isPasswordKey key) && isString value then
    if String.eqb key "lastname" then JS.or value JUndefined else trimValue value
  else value.

(** * Properties *)

(** ** Reading objects *)

Lemma get_empty k : get ∅ k = JUndefined.
Proof. reflexivity. Qed.

Lemma get_insert_eq (o : gmap string jsval) k v : get (<[k := v]> o) k = v.
Proof. unfold get. by rewrite lookup_insert_eq. Qed.

Lemma get_insert_ne (o : gmap string jsval) k k' v :
  k ≠ k' -> get (<[k := v]> o) k' = get o k'.
Proof. intros Hne. unfold get. by rewrite lookup_insert_ne. Qed.

Lemma get_delete_eq (o : gmap string jsval) k : get (delete k o) k = JUndefined.
Proof. unfold get. by rewrite lookup_delete_eq. Qed.

Lemma get_delete_ne (o : gmap string jsval) k k' :
  k ≠ k' -> get (delete k o) k' = get o k'.
Proof. intros Hne. unfold get. by rewrite lookup_delete_ne. Qed.

Ltac get_simpl :=
  repeat first
    [ rewrite get_insert_eq
    | rewrite get_delete_eq
    | rewrite get_insert_ne by discriminate
    | rewrite get_delete_ne by discriminate
    | rewrite get_empty ].

(** ** String.prototype.trim *)

Lemma trimEnd_nonspace c s :
  isWhiteSpace c = false -> trimEnd (String c s) = String c (trimEnd s).
Proof. intros Hc. cbn [trimEnd]. rewrite Hc. by destruct (trimEnd s). Qed.

Lemma trimEnd_idem s : trimEnd (trimEnd s) = trimEnd s.
Proof.
  induction s as [|c s IH]; [done|].
  cbn [trimEnd]. destruct (trimEnd s) as [|c' t] eqn:Ht.
  - destruct (isWhiteSpace c) eqn:Hc; [done|]. cbn. by rewrite Hc.
  - change (trimEnd (String c (String c' t))) with
      (match trimEnd (String c' t) with
       | EmptyString => if isWhiteSpace c then EmptyString else String c EmptyString
       | t0 => String c t0
       end).
    by rewrite IH.
Qed.

Lemma trimStart_head s :
  trimStart s = EmptyString \/
  exists c t, trimStart s = String c t /\ isWhiteSpace c = false.
Proof.
  induction s as [|c s IH]; [by left|].
  cbn [trimStart]. destruct (isWhiteSpace c) eqn:Hc; [done|].
  right. by exists c, s.
Qed.

Lemma trim_idem s : trim (trim s) = trim s.
Proof.
  unfold trim. destruct (trimStart_head s) as [-> | (c & t & -> & Hc)]; [done|].
  rewrite (trimEnd_nonspace _ _ Hc). cbn [trimStart]. rewrite Hc.
  by rewrite (trimEnd_nonspace _ _ Hc), trimEnd_idem.
Qed.

(** ** normalizeData, key by key *)

Lemma normalizeData_unfold data :
  normalizeData data =
  <["news" := JBool (news data)]>
    (<["registrationToken" :=
         match registrationToken data with
         | Some t => JString (trim t)
         | None => JUndefined
         end]>
       (<["confirmPassword" := JString (confirmPassword data)]>
          (<["password" := JString (password data)]>
             (<["email" := JString (trim (email data))]>
                (<["lastname" := JS.or (JString (lastname data)) JUndefined]>
                   (<["lastname" := JString (trim (lastname data))]>
                      (<["firstname" := JString (trim (firstname data))]> ∅))))))).
Proof.
  unfold normalizeData, normalizeEntries, entries.
  destruct (registrationToken data); reflexivity.
Qed.

Section NormalizeData.

Variable data : RegisterFormValues.

Lemma normalizeData_firstname :
  get (normalizeData data) "firstname" = JString (trim (firstname data)).
Proof. rewrite normalizeData_unfold. by get_simpl. Qed.

Lemma normalizeData_lastname :
  get (normalizeData data) "lastname" =
  if String.eqb (lastname data) "" then JUndefined else JString (lastname data).
Proof.
  rewrite normalizeData_unfold. get_simpl.
  unfold JS.or, toBoolean. by destruct (String.eqb (lastname data) "").
Qed.

Lemma normalizeData_email :
  get (normalizeData data) "email" = JString (trim (email data)).
Proof. rewrite normalizeData_unfold. by get_simpl. Qed.

Lemma normalizeData_password :
  get (normalizeData data) "password" = JString (password data).
Proof. rewrite normalizeData_unfold. by get_simpl. Qed.

Lemma normalizeData_confirmPassword :
  get (normalizeData data) "confirmPassword" = JString (confirmPassword data).
Proof. rewrite normalizeData_unfold. by get_simpl. Qed.

Lemma normalizeData_registrationToken :
  get (normalizeData data) "registrationToken" =
  match registrationToken data with
  | Some t => JString (trim t)
  | None => JUndefined
  end.
Proof. rewrite normalizeData_unfold. by get_simpl. Qed.

Lemma normalizeData_news :
  get (normalizeData data) "news" = JBool (news data).
Proof. rewrite normalizeData_unfold. by get_simpl. Qed.

End NormalizeData.

(** The built-ins and normalizeData on concrete values. *)

Example trim_ex : trim (String (ascii_of_nat 9) "  Ada Lovelace  ") = "Ada Lovelace".
Proof. reflexivity. Qed.

Example trim_blank_ex : trim "   " = "".
Proof. reflexivity. Qed.

Example encodeURIComponent_ex :
  encodeURIComponent "Invalid token: a/b?c=d&e" = "Invalid%20token%3A%20a%2Fb%3Fc%3Dd%26e".
Proof. reflexivity. Qed.

Example encodeURIComponent_latin1_ex :
  encodeURIComponent (String (ascii_of_nat 233) "") = "%C3%A9".
Proof. reflexivity. Qed.

Example normalizeData_ex :
  normalizeData {| firstname := " Ada "; lastname := " Doe "; email := "a@b.c ";
                   password := " pW1 "; confirmPassword := " pW1 ";
                   registrationToken := None; news := true |}
  = list_to_map [("firstname", JString "Ada"); ("lastname", JString " Doe ");
                 ("email", JString "a@b.c"); ("password", JString " pW1 ");
                 ("confirmPassword", JString " pW1 ");
                 ("registrationToken", JUndefined); ("news", JBool true)].
Proof. apply (bool_decide_unpack _). vm_compute. exact I. Qed.

(** ** The cast and the validation of an object *)

Lemma get_castField value acc prop field k :
  get (Yup.castField value acc (prop, field)) k =
  if String.eqb k prop then Yup.castValue field (get value prop) else get acc k.
Proof.
  unfold Yup.castField.
  destruct (String.eqb_spec k prop) as [-> | Hne].
  - destruct (Yup.castValue field (get value prop)); by get_simpl.
  - destruct (Yup.castValue field (get value prop));
      by rewrite ?get_delete_ne, ?get_insert_ne by done.
Qed.

Lemma get_fold_castField value schema : forall acc k,
  get (fold_left (Yup.castField value) schema acc) k =
  Yup.castLookup value schema k (get acc k).
Proof.
  induction schema as [|[prop field] rest IH]; intros acc k; [done|].
  cbn [fold_left Yup.castLookup]. by rewrite IH, get_castField.
Qed.

Lemma get_castObject schema value k :
  get (Yup.castObject schema value) k = Yup.castLookup value schema k (get value k).
Proof. apply get_fold_castField. Qed.

(** ** The fields of the schemas, one at a time *)

Section Fields.

Variable translatedErrors : TE.t.
Variable rEmail : string -> bool.

Local Abbreviation te := translatedErrors.

Lemma runTests_chain ts chain s parent :
  Forall2 agrees ts chain ->
  Yup.runTests ts (JString s) parent = Yup.MObject <$> failing chain s.
Proof.
  unfold Yup.runTests, failing.
  induction 1 as [|t c ts chain [Hm Ht] _ IH]; [done|].
  cbn [List.filter]. rewrite Ht.
  destruct (c.2 s); cbn [negb]; [done|].
  cbn [fmap list_fmap]. rewrite Hm. f_equal. exact IH.
Qed.

Lemma validateField_chain field chain s parent :
  Yup.whitelist field = None ->
  Forall2 agrees (Yup.tests field) chain ->
  Yup.validateField field (JString s) parent = Yup.MObject <$> failing chain s.
Proof.
  intros Hw Hts. unfold Yup.validateField, Yup.whitelistError. rewrite Hw.
  cbn. by apply runTests_chain.
Qed.

Ltac chain_agrees :=
  repeat (constructor;
          [split; [reflexivity
                  | intros; cbn [Yup.test Yup.isAbsent Yup.onString orb snd];
                    rewrite ?andb_false_r, ?andb_true_r; reflexivity] |]);
  try constructor.

Local Abbreviation firstnameField :=
  (Yup.string |> Yup.trim |> Yup.required (msgFirstnameRequired te)).
Local Abbreviation passwordField :=
  (Yup.string
   |> Yup.min 8 (msgMinLength te)
   |> Yup.matches re_lowercase msgLowercase
   |> Yup.matches re_uppercase msgUppercase
   |> Yup.matches re_digit msgNumber
   |> Yup.required (msgPasswordRequired te)).
Local Abbreviation confirmPasswordField :=
  (Yup.string
   |> Yup.required (msgConfirmRequired te)
   |> Yup.oneOf [Yup.VRef "password"; Yup.VValue JNull] msgNoMatch).
Local Abbreviation tokenField :=
  (Yup.string |> Yup.required (msgTokenRequired te)).
Local Abbreviation emailField :=
  (Yup.string
   |> Yup.email rEmail (msgEmail te)
   |> Yup.strict
   |> Yup.lowercase (msgEmailLowercase te)
   |> Yup.required (msgEmailRequired te)).

Lemma validate_firstnameField s parent :
  Yup.validateField firstnameField (Yup.castValue firstnameField (JString (trim s))) parent
  = Yup.MObject <$> failing [ (msgFirstnameRequired te, notEmpty) ] (trim s).
Proof.
  change (Yup.castValue firstnameField (JString (trim s)))
    with (JString (trim (trim s))).
  rewrite trim_idem.
  unfold Yup.validateField, Yup.runTests, failing. cbn.
  rewrite trim_idem, String.eqb_refl. cbn.
  unfold notEmpty. by destruct (String.eqb (trim s) "").
Qed.

Lemma validate_passwordField s parent :
  Yup.validateField passwordField (Yup.castValue passwordField (JString s)) parent
  = Yup.MObject <$> failing (passwordChain te) s.
Proof. apply validateField_chain; [done | chain_agrees]. Qed.

Lemma validate_emailField s parent :
  Yup.validateField emailField (Yup.castValue emailField (JString s)) parent
  = Yup.MObject <$> failing (emailChain te rEmail) s.
Proof.
  apply validateField_chain; [done | chain_agrees].
Qed.

Lemma validate_tokenField t parent :
  Yup.validateField tokenField (Yup.castValue tokenField (optString t)) parent
  = Yup.MObject <$> tokenErrors te t.
Proof.
  destruct t as [s|]; [|done].
  apply validateField_chain; [done | chain_agrees].
Qed.

Lemma validate_confirmPasswordField pw cp parent :
  get parent "password" = JString pw ->
  Yup.validateField confirmPasswordField
    (Yup.castValue confirmPasswordField (JString cp)) parent
  = Yup.MObject <$> confirmPasswordErrors te pw cp.
Proof.
  intros Hpw. unfold Yup.validateField, Yup.runTests, confirmPasswordErrors, failing.
  cbn. rewrite Hpw.
  destruct (String.eqb_spec pw cp) as [-> | Hne].
  - rewrite bool_decide_eq_true_2 by done. cbn.
    unfold notEmpty. by destruct (String.eqb cp "").
  - rewrite bool_decide_eq_false_2 by congruence. done.
Qed.

Lemma validate_lastnameField s parent :
  Yup.validateField (Yup.string |> Yup.nullable)
    (Yup.castValue (Yup.string |> Yup.nullable)
       (if String.eqb s "" then JUndefined else JString s)) parent = [].
Proof. by destruct (String.eqb s ""). Qed.

End Fields.

(** ** The three schemas on the values they are given *)

Lemma at_fmap path (ms : list Yup.MessageDescriptor) :
  pair path <$> (Yup.MObject <$> ms) = at_ path ms.
Proof. unfold at_. by rewrite <- list_fmap_compose. Qed.

Lemma normalizeData_registrationToken' data :
  get (normalizeData data) "registrationToken" =
  optString (trim <$> registrationToken data).
Proof. rewrite normalizeData_registrationToken. by destruct (registrationToken data). Qed.

Ltac cast_lookup :=
  cbn [Yup.castLookup String.eqb Ascii.eqb Bool.eqb].

Section Validation.

Variable translatedErrors : TE.t.
Variable rEmail : string -> bool.

Local Abbreviation te := translatedErrors.

Lemma validate_REGISTER_USER_SCHEMA data :
  Yup.validate (REGISTER_USER_SCHEMA te) (normalizeData data)
  = registerErrors te rEmail false data.
Proof.
  unfold Yup.validate, REGISTER_USER_SCHEMA, registerErrors. cbn [flat_map].
  pose proof (get_castObject (REGISTER_USER_SCHEMA te) (normalizeData data)) as Hget.
  unfold REGISTER_USER_SCHEMA in Hget.
  remember (Yup.castObject _ _) as parent eqn:Hparent. clear Hparent.
  rewrite !Hget. cast_lookup.
  rewrite normalizeData_firstname, normalizeData_lastname, normalizeData_password,
    normalizeData_confirmPassword, normalizeData_registrationToken'.
  rewrite validate_firstnameField, validate_lastnameField, validate_passwordField,
    validate_tokenField.
  rewrite (validate_confirmPasswordField te (password data)).
  2:{ rewrite Hget. cast_lookup. by rewrite normalizeData_password. }
  rewrite !at_fmap. by rewrite app_nil_r.
Qed.

Lemma validate_REGISTER_ADMIN_SCHEMA data :
  Yup.validate (REGISTER_ADMIN_SCHEMA te rEmail) (normalizeData data)
  = registerErrors te rEmail true data.
Proof.
  unfold Yup.validate, REGISTER_ADMIN_SCHEMA, registerErrors. cbn [flat_map].
  pose proof (get_castObject (REGISTER_ADMIN_SCHEMA te rEmail) (normalizeData data)) as Hget.
  unfold REGISTER_ADMIN_SCHEMA in Hget.
  remember (Yup.castObject _ _) as parent eqn:Hparent. clear Hparent.
  rewrite !Hget. cast_lookup.
  rewrite normalizeData_firstname, normalizeData_lastname, normalizeData_password,
    normalizeData_confirmPassword, normalizeData_email.
  rewrite validate_firstnameField, validate_lastnameField, validate_passwordField,
    validate_emailField.
  rewrite (validate_confirmPasswordField te (password data)).
  2:{ rewrite Hget. cast_lookup. by rewrite normalizeData_password. }
  rewrite !at_fmap. by rewrite app_nil_r.
Qed.

Lemma validate_schema isAdminRegistration data :
  Yup.validate (schema te rEmail isAdminRegistration) (normalizeData data)
  = registerErrors te rEmail isAdminRegistration data.
Proof.
  destruct isAdminRegistration;
    [apply validate_REGISTER_ADMIN_SCHEMA | apply validate_REGISTER_USER_SCHEMA].
Qed.

Lemma validate_RESET_PASSWORD_SCHEMA values :
  Yup.validate (RESET_PASSWORD_SCHEMA te) (ResetPassword.toObject values)
  = (at_ "password" (failing (passwordChain te) (ResetPassword.password values))
     ++ at_ "confirmPassword"
          (confirmPasswordErrors te (ResetPassword.password values)
                                    (ResetPassword.confirmPassword values)))%list.
Proof.
  unfold Yup.validate, RESET_PASSWORD_SCHEMA. cbn [flat_map].
  pose proof (get_castObject (RESET_PASSWORD_SCHEMA te) (ResetPassword.toObject values))
    as Hget.
  unfold RESET_PASSWORD_SCHEMA in Hget.
  remember (Yup.castObject _ _) as parent eqn:Hparent. clear Hparent.
  assert (Hpw : get (ResetPassword.toObject values) "password"
                = JString (ResetPassword.password values)).
  { unfold ResetPassword.toObject. by get_simpl. }
  assert (Hcp : get (ResetPassword.toObject values) "confirmPassword"
                = JString (ResetPassword.confirmPassword values)).
  { unfold ResetPassword.toObject. by get_simpl. }
  rewrite !Hget. cast_lookup. rewrite Hpw, Hcp.
  rewrite validate_passwordField.
  rewrite (validate_confirmPasswordField te (ResetPassword.password values)).
  2:{ rewrite Hget. cast_lookup. by rewrite Hpw. }
  rewrite !at_fmap. by rewrite app_nil_r.
Qed.

End Validation.

(** ** The errors collected by the catch block *)

Section Collect.

Variable formatMessage : Yup.MessageDescriptor -> string.

Local Abbreviation collect := (fold_left (collectError formatMessage)).

Lemma objectsAt_app k l1 l2 :
  objectsAt k (l1 ++ l2) = (objectsAt k l1 ++ objectsAt k l2)%list.
Proof. apply omap_app. Qed.

Lemma objectsAt_at k path ms :
  objectsAt k (at_ path ms) = if String.eqb path k then ms else [].
Proof.
  unfold objectsAt, at_. induction ms as [|m ms IH]; cbn.
  - by destruct (String.eqb path k).
  - rewrite IH. by destruct (String.eqb path k).
Qed.

(** A later error of a path overwrites the earlier ones: the map holds
    the message of the last one. *)
Lemma collect_lookup inner : forall acc k,
  k ≠ "" ->
  collect inner acc !! k =
  match last (objectsAt k inner) with
  | Some m => Some (formatMessage m)
  | None => acc !! k
  end.
Proof.
  induction inner as [|[path message] inner IH] using rev_ind; intros acc k Hk; [done|].
  rewrite fold_left_app, objectsAt_app. cbn [fold_left collectError].
  unfold objectsAt at 2. cbn [omap list_omap fst snd].
  destruct (String.eqb_spec path k) as [-> | Hne].
  - destruct message as [m|t].
    + cbn [toBoolean]. destruct (String.eqb_spec k "") as [-> | _]; [done|].
      cbn [negb]. by rewrite last_snoc, lookup_insert_eq.
    + cbn. rewrite app_nil_r. by apply IH.
  - cbn. rewrite app_nil_r, <- IH by done.
    destruct message as [m|t]; [|done].
    destruct (negb (String.eqb path "")); [|done].
    by rewrite lookup_insert_ne.
Qed.

Lemma collect_lookup_empty inner : forall acc,
  collect inner acc !! "" = acc !! "".
Proof.
  induction inner as [|[path message] inner IH]; intros acc; [done|].
  cbn [fold_left collectError]. rewrite IH.
  destruct message as [m|t]; [|done]. cbn [toBoolean].
  destruct (String.eqb_spec path "") as [-> | Hne]; [done|].
  cbn [negb]. by rewrite lookup_insert_ne.
Qed.

Lemma objectsAt_nil_iff k inner :
  Forall (fun e => exists m, e.2 = Yup.MObject m) inner ->
  objectsAt k inner = [] <-> k ∉ inner.*1.
Proof.
  induction 1 as [|[path message] inner [m Hm] _ IH]; cbn.
  - split; [intros _; apply not_elem_of_nil | done].
  - cbn in Hm. subst message. rewrite not_elem_of_cons.
    destruct (String.eqb_spec path k) as [-> | Hne].
    + split; [done | by intros [? _]].
    + rewrite IH. split; [by split | by intros [_ ?]].
Qed.

(** Exactly the paths with an error have a message. *)
Lemma collect_is_Some inner k :
  Forall (fun e => e.1 ≠ "") inner ->
  Forall (fun e => exists m, e.2 = Yup.MObject m) inner ->
  is_Some (collect inner ∅ !! k) <-> k ∈ inner.*1.
Proof.
  intros Hpaths Hobj.
  destruct (decide (k = "")) as [-> | Hk].
  { rewrite collect_lookup_empty, lookup_empty. split; [by intros [? ?]|].
    intros (e & He & Hin)%list_elem_of_fmap.
    rewrite Forall_forall in Hpaths. by destruct (Hpaths e Hin). }
  rewrite collect_lookup by done.
  pose proof (objectsAt_nil_iff k inner Hobj) as Hnil.
  destruct (last (objectsAt k inner)) as [m|] eqn:Hlast.
  - split; [|by eexists]. intros _.
    destruct (decide (k ∈ inner.*1)) as [|Hnot]; [done|].
    apply Hnil in Hnot. by rewrite Hnot in Hlast.
  - apply last_None in Hlast. apply Hnil in Hlast.
    rewrite lookup_empty. split; [by intros [? ?] | done].
Qed.

End Collect.

(** ** The errors of the registration values are field errors with object
    messages *)

Lemma at_paths path ms : Forall (fun e => e.1 = path) (at_ path ms).
Proof. unfold at_. induction ms; cbn; by constructor. Qed.

Lemma at_objects path ms :
  Forall (fun e : string * Yup.Message => exists m, e.2 = Yup.MObject m) (at_ path ms).
Proof. unfold at_. induction ms; cbn; constructor; eauto. Qed.

Lemma registerErrors_objects te rEmail isAdminRegistration data :
  Forall (fun e : string * Yup.Message => exists m, e.2 = Yup.MObject m)
         (registerErrors te rEmail isAdminRegistration data).
Proof.
  unfold registerErrors. rewrite !Forall_app.
  destruct isAdminRegistration; repeat split; apply at_objects.
Qed.

Lemma registerErrors_paths te rEmail isAdminRegistration data :
  Forall (fun e : string * Yup.Message => e.1 ≠ "")
         (registerErrors te rEmail isAdminRegistration data).
Proof.
  unfold registerErrors. rewrite !Forall_app.
  destruct isAdminRegistration; repeat split;
    (eapply Forall_impl; [apply at_paths|]); by intros e ->.
Qed.

(** What [err.inner] holds for the password field. *)
Lemma objectsAt_password te rEmail isAdminRegistration data :
  objectsAt "password" (registerErrors te rEmail isAdminRegistration data)
  = failing (passwordChain te) (password data).
Proof.
  unfold registerErrors. rewrite !objectsAt_app.
  destruct isAdminRegistration; rewrite !objectsAt_at; cbn; by rewrite app_nil_r.
Qed.

(** What [err.inner] holds for the confirmPassword field. *)
Lemma objectsAt_confirmPassword te rEmail isAdminRegistration data :
  objectsAt "confirmPassword" (registerErrors te rEmail isAdminRegistration data)
  = confirmPasswordErrors te (password data) (confirmPassword data).
Proof.
  unfold registerErrors. rewrite !objectsAt_app.
  destruct isAdminRegistration; rewrite !objectsAt_at; cbn; by rewrite app_nil_r.
Qed.

(** ** lodash omit on the normalized values *)

Ltac map_cases :=
  apply map_eq; intros k;
  repeat first [rewrite lookup_insert | rewrite lookup_delete | rewrite lookup_empty];
  repeat case_decide; subst; try done.

Lemma omit_admin data :
  omit (normalizeData data) ["registrationToken"; "confirmPassword"] = adminArg data.
Proof.
  rewrite normalizeData_unfold. unfold omit, adminArg, adminBody. cbn [fold_left].
  map_cases.
Qed.

Lemma omit_user data :
  omit (normalizeData data) ["registrationToken"; "confirmPassword"; "email"; "news"]
  = userInfo (userBody data).
Proof.
  rewrite normalizeData_unfold. unfold omit, userBody, userInfo. cbn [fold_left].
  map_cases.
Qed.

Lemma adminArg_news data : get (adminArg data) "news" = JBool (news data).
Proof. unfold adminArg. by get_simpl. Qed.

Lemma adminArg_body data : delete "news" (adminArg data) = adminBody data.
Proof. unfold adminArg, adminBody. map_cases. Qed.

(** ** The two handlers and onSubmit *)

Section Submission.

Variable translatedErrors : TE.t.
Variable rEmail : string -> bool.
Variable formatMessage : Yup.MessageDescriptor -> string.
Variable formatAPIError : QueryError -> string.
Variable formatValidationErrors : QueryError -> gmap string string.
Variable isBaseQueryError : QueryError -> bool.
Variable registerAdmin : gmap string jsval -> Response RegisterAdminData.
Variable registerUser : RegisterUserBody -> Response TokenData.

Local Abbreviation handleRegisterAdmin' :=
  (handleRegisterAdmin formatAPIError formatValidationErrors isBaseQueryError
                       registerAdmin).
Local Abbreviation handleRegisterUser' :=
  (handleRegisterUser formatAPIError formatValidationErrors isBaseQueryError
                      registerUser).
Local Abbreviation onSubmit' :=
  (onSubmit translatedErrors rEmail formatMessage formatAPIError
            formatValidationErrors isBaseQueryError registerAdmin registerUser).
Local Abbreviation schema' := (schema translatedErrors rEmail).

(** Each handler sends one request, first of all. *)
Lemma handleRegisterAdmin_calls arg :
  List.filter isNetworkCall (handleRegisterAdmin' arg)
  = [CallRegisterAdmin (delete "news" arg)].
Proof.
  unfold handleRegisterAdmin. cbn [List.filter isNetworkCall]. f_equal.
  destruct (registerAdmin _) as [d|e].
  - cbn [List.filter isNetworkCall]. rewrite List.filter_app.
    destruct (user_roles d) as [roles|]; [destruct (findSuperAdmin roles)|];
      by destruct (toBoolean _).
  - destruct (isBaseQueryError e); [|done]. by case_bool_decide.
Qed.

Lemma handleRegisterUser_calls hasAdmin body news :
  List.filter isNetworkCall (handleRegisterUser' hasAdmin body news)
  = [CallRegisterUser body].
Proof.
  unfold handleRegisterUser. cbn [List.filter isNetworkCall]. f_equal.
  destruct (registerUser _) as [d|e].
  - by destruct (toBoolean _).
  - destruct (isBaseQueryError e); [|done]. by case_bool_decide.
Qed.

(** Invalid values: the catch block. *)
Lemma onSubmit_invalid isAdminRegistration hasAdmin submitCount data :
  Yup.validate (schema' isAdminRegistration) (normalizeData data) ≠ [] ->
  onSubmit' isAdminRegistration hasAdmin submitCount data
  = [ SetErrors (fold_left (collectError formatMessage)
                           (Yup.validate (schema' isAdminRegistration) (normalizeData data)) ∅);
      SetSubmitCount (submitCount + 1) ].
Proof.
  intros Hinv. unfold onSubmit.
  by destruct (Yup.validate _ _).
Qed.

(** Valid values: the request is chosen by the normalized token. *)
Lemma onSubmit_valid isAdminRegistration hasAdmin submitCount data :
  Yup.validate (schema' isAdminRegistration) (normalizeData data) = [] ->
  onSubmit' isAdminRegistration hasAdmin submitCount data
  = (trackSubmit isAdminRegistration submitCount ++
     (if hasToken data
      then handleRegisterUser' hasAdmin (userBody data) (JBool (news data))
      else handleRegisterAdmin' (adminArg data)))%list.
Proof.
  intros Hval. unfold onSubmit. rewrite Hval.
  rewrite omit_admin, omit_user, normalizeData_news, normalizeData_registrationToken'.
  reflexivity.
Qed.

(** The invitation schema does not pass without a token. *)
Lemma user_schema_needs_token data :
  Yup.validate (schema' false) (normalizeData data) = [] -> hasToken data = true.
Proof.
  rewrite validate_schema. unfold registerErrors, hasToken.
  intros H. repeat apply app_eq_nil in H as [_ H].
  destruct (registrationToken data) as [t|]; [|done].
  cbn in *. unfold notEmpty in H. by destruct (String.eqb (trim t) "").
Qed.

End Submission.

(** ** The password chain *)

Lemma failing_passwordChain te pw :
  failing (passwordChain te) pw
  = (failing (passwordChecks te) pw
     ++ (if notEmpty pw then [] else [msgPasswordRequired te]))%list.
Proof.
  unfold failing, passwordChain. rewrite List.filter_app, fmap_app.
  cbn. by destruct (notEmpty pw).
Qed.

Lemma failing_passwordChain_nonempty te pw :
  pw ≠ "" -> failing (passwordChain te) pw = failing (passwordChecks te) pw.
Proof.
  intros Hpw. rewrite failing_passwordChain. unfold notEmpty.
  destruct (String.eqb_spec pw ""); [done|]. apply app_nil_r.
Qed.

Lemma objectsAt_nonempty k inner : objectsAt k inner ≠ [] -> inner ≠ [].
Proof. by intros H ->. Qed.

(** Finding the super-admin role. *)
Lemma findSuperAdmin_Some roles role :
  role ∈ roles -> code role = "strapi-super-admin" ->
  exists r, findSuperAdmin roles = Some r.
Proof.
  intros Hin Hcode. unfold findSuperAdmin.
  destruct (List.find _ roles) as [r|] eqn:Hfind; [by exists r|].
  apply list_elem_of_In in Hin.
  pose proof (find_none _ _ Hfind _ Hin) as Hf. cbn in Hf.
  rewrite Hcode in Hf. discriminate Hf.
Qed.

(** * The claims *)

Section Claims.

Variable translatedErrors : TE.t.
Variable rEmail : string -> bool.
Variable formatMessage : Yup.MessageDescriptor -> string.
Variable formatAPIError : QueryError -> string.
Variable formatValidationErrors : QueryError -> gmap string string.
Variable isBaseQueryError : QueryError -> bool.
Variable registerAdmin : gmap string jsval -> Response RegisterAdminData.
Variable registerUser : RegisterUserBody -> Response TokenData.
Variable getRegistrationInfo : string -> Response RegistrationInfo.

Local Abbreviation onSubmit' :=
  (onSubmit translatedErrors rEmail formatMessage formatAPIError
            formatValidationErrors isBaseQueryError registerAdmin registerUser).
Local Abbreviation schema' := (schema translatedErrors rEmail).

(** C1, as the code has it.  onSubmit normalizes the values and then
    validates them.  When the normalized values of a registration
    submission fail the schema of the variant, onSubmit only sets the field
    errors and counts the attempt: the error map is not empty, it has a
    message for exactly the paths that have an error, and neither
    registerAdmin nor registerUser is called. *)
Theorem C1_invalid_values_set_errors_and_send_nothing
    isAdminRegistration hasAdmin submitCount data :
  Yup.validate (schema' isAdminRegistration) (normalizeData data) ≠ [] ->
  exists errors,
    onSubmit' isAdminRegistration hasAdmin submitCount data
    = [ SetErrors errors; SetSubmitCount (submitCount + 1) ]
    /\ errors ≠ ∅
    /\ (forall path,
          is_Some (errors !! path) <->
          path ∈ (Yup.validate (schema' isAdminRegistration) (normalizeData data)).*1)
    /\ List.filter isNetworkCall
         (onSubmit' isAdminRegistration hasAdmin submitCount data) = [].
Proof.
  intros Hinv. eexists. rewrite onSubmit_invalid by done.
  split; [reflexivity|].
  assert (Hdom : forall path,
    is_Some (fold_left (collectError formatMessage)
               (Yup.validate (schema' isAdminRegistration) (normalizeData data)) ∅
             !! path) <->
    path ∈ (Yup.validate (schema' isAdminRegistration) (normalizeData data)).*1).
  { intros path. rewrite validate_schema.
    apply collect_is_Some;
      [apply registerErrors_paths | apply registerErrors_objects]. }
  split; [|by split].
  intros Hempty.
  destruct (Yup.validate (schema' isAdminRegistration) (normalizeData data))
    as [|[path message] inner] eqn:Hv; [done|].
  assert (Hsome : is_Some ((∅ : gmap string string) !! path)).
  { rewrite <- Hempty. apply Hdom. cbn. left. }
  rewrite lookup_empty in Hsome. by destruct Hsome.
Qed.

(** C2, as the code has it.  When the password fails at least one of the
    four checks, onSubmit sets one message for the password field: that
    of the last failing test of the chain, which is the four checks in
    the order length, lowercase, uppercase, digit, followed by the
    required test (failing only for the empty password). *)
Theorem C2_last_failing_check_is_surfaced
    isAdminRegistration hasAdmin submitCount data :
  failing (passwordChecks translatedErrors) (password data) ≠ [] ->
  exists errors,
    onSubmit' isAdminRegistration hasAdmin submitCount data
    = [ SetErrors errors; SetSubmitCount (submitCount + 1) ]
    /\ errors !! "password"
       = formatMessage <$>
           last (failing (passwordChecks translatedErrors) (password data)
                 ++ (if String.eqb (password data) ""
                     then [msgPasswordRequired translatedErrors] else []))%list.
Proof.
  intros Hfail.
  assert (Hchain : failing (passwordChain translatedErrors) (password data)
                   = (failing (passwordChecks translatedErrors) (password data)
                      ++ (if String.eqb (password data) ""
                          then [msgPasswordRequired translatedErrors] else []))%list).
  { rewrite failing_passwordChain. unfold notEmpty.
    by destruct (String.eqb (password data) ""). }
  assert (Hne : failing (passwordChain translatedErrors) (password data) ≠ []).
  { rewrite Hchain. by intros [? _]%app_eq_nil. }
  eexists. rewrite onSubmit_invalid.
  - split; [reflexivity|].
    rewrite collect_lookup by done.
    rewrite validate_schema, objectsAt_password, <- Hchain.
    destruct (last _) eqn:Hlast; [done|]. by apply last_None in Hlast.
  - rewrite validate_schema.
    apply (objectsAt_nonempty "password"). by rewrite objectsAt_password.
Qed.

(** C4.  When a valid registration submission is answered by a base query
    error named ValidationError, the handler that sent the request sets
    the field errors to [formatValidationErrors(res.error)], nothing else
    sets them, and nothing navigates. *)
Theorem C4_server_validation_error_sets_field_errors
    isAdminRegistration hasAdmin submitCount data error :
  Yup.validate (schema' isAdminRegistration) (normalizeData data) = [] ->
  (if hasToken data
   then registerUser (userBody data) = ResError error
   else registerAdmin (adminBody data) = ResError error) ->
  isBaseQueryError error = true ->
  error_name error = Some "ValidationError" ->
  onSubmit' isAdminRegistration hasAdmin submitCount data
  = (trackSubmit isAdminRegistration submitCount
     ++ [ (if hasToken data then CallRegisterUser (userBody data)
           else CallRegisterAdmin (adminBody data));
          TrackUsage "didNotCreateFirstAdmin" [];
          SetErrors (formatValidationErrors error) ])%list
  /\ List.filter isSetErrors (onSubmit' isAdminRegistration hasAdmin submitCount data)
     = [ SetErrors (formatValidationErrors error) ]
  /\ List.filter isNavigation (onSubmit' isAdminRegistration hasAdmin submitCount data)
     = [].
Proof.
  intros Hval Hres Hbase Hname.
  assert (Hrun : onSubmit' isAdminRegistration hasAdmin submitCount data
    = (trackSubmit isAdminRegistration submitCount
       ++ [ (if hasToken data then CallRegisterUser (userBody data)
             else CallRegisterAdmin (adminBody data));
            TrackUsage "didNotCreateFirstAdmin" [];
            SetErrors (formatValidationErrors error) ])%list).
  { rewrite onSubmit_valid by done. f_equal.
    destruct (hasToken data).
    - unfold handleRegisterUser. rewrite Hres, Hbase.
      by rewrite bool_decide_eq_true_2.
    - unfold handleRegisterAdmin. rewrite adminArg_body, Hres, Hbase.
      by rewrite bool_decide_eq_true_2. }
  rewrite Hrun. split; [done|].
  rewrite !List.filter_app. unfold trackSubmit.
  by destruct (Nat.ltb 0 submitCount && isAdminRegistration), (hasToken data).
Qed.

(** C5.  When a valid submission without a registration token is answered
    by registerAdmin with data whose roles hold a role of code
    strapi-super-admin, the token of the response is stored right after
    the request, before anything else, and the last effect is the
    navigation: to /usecase with the query hasAdmin=true when news is
    checked, to / otherwise. *)
Theorem C5_super_admin_registration_navigation
    isAdminRegistration hasAdmin submitCount data response roles role :
  Yup.validate (schema' isAdminRegistration) (normalizeData data) = [] ->
  hasToken data = false ->
  registerAdmin (adminBody data) = ResData response ->
  user_roles response = Some roles ->
  role ∈ roles ->
  code role = "strapi-super-admin" ->
  onSubmit' isAdminRegistration hasAdmin submitCount data
  = (trackSubmit isAdminRegistration submitCount
     ++ [ CallRegisterAdmin (adminBody data);
          SetToken (admin_token response);
          AuthSetGuidedTourSkipped;
          SetSkipped false;
          TrackUsage "didLaunchGuidedtour" [] ]
     ++ (if news data
         then [ EnableNpsSurvey; NavigateTo (ToPath "/usecase" "?hasAdmin=true") ]
         else [ NavigateTo (ToString "/") ]))%list.
Proof.
  intros Hval Htoken Hres Hroles Hin Hcode.
  rewrite onSubmit_valid by done. rewrite Htoken. f_equal.
  unfold handleRegisterAdmin.
  rewrite adminArg_body, adminArg_news, Hres, Hroles.
  destruct (findSuperAdmin_Some roles role Hin Hcode) as [r ->].
  by destruct (news data).
Qed.

(** C8.  Whenever confirmPassword differs from password, whatever the
    password is, the schema of either registration variant and the
    reset-password schema report the confirmPassword field with the
    message that the passwords must match, and the registration form
    sets that message for the field. *)
Theorem C8_confirmPassword_mismatch_is_invalid
    isAdminRegistration hasAdmin submitCount data :
  confirmPassword data ≠ password data ->
  ("confirmPassword", Yup.MObject msgNoMatch)
    ∈ Yup.validate (schema' isAdminRegistration) (normalizeData data)
  /\ ("confirmPassword", Yup.MObject msgNoMatch)
       ∈ Yup.validate (RESET_PASSWORD_SCHEMA translatedErrors)
           (ResetPassword.toObject
              {| ResetPassword.password := password data;
                 ResetPassword.confirmPassword := confirmPassword data |})
  /\ exists errors,
       onSubmit' isAdminRegistration hasAdmin submitCount data
       = [ SetErrors errors; SetSubmitCount (submitCount + 1) ]
       /\ errors !! "confirmPassword" = Some (formatMessage msgNoMatch).
Proof.
  intros Hne.
  assert (Herrs : confirmPasswordErrors translatedErrors (password data)
                    (confirmPassword data) = [msgNoMatch]).
  { unfold confirmPasswordErrors.
    destruct (String.eqb_spec (password data) (confirmPassword data));
      [congruence|done]. }
  assert (Hin : ("confirmPassword", Yup.MObject msgNoMatch)
                ∈ Yup.validate (schema' isAdminRegistration) (normalizeData data)).
  { rewrite validate_schema. unfold registerErrors. rewrite Herrs.
    rewrite !elem_of_app. right. right. left. cbn. left. }
  split; [exact Hin|]. split.
  - rewrite validate_RESET_PASSWORD_SCHEMA.
    cbn [ResetPassword.password ResetPassword.confirmPassword]. rewrite Herrs.
    rewrite elem_of_app. right. cbn. left.
  - eexists. rewrite onSubmit_invalid.
    + split; [reflexivity|].
      rewrite collect_lookup by done.
      by rewrite validate_schema, objectsAt_confirmPassword, Herrs.
    + intros Hnil. rewrite Hnil in Hin. by apply elem_of_nil in Hin.
Qed.

(** C9, as the code has it.  The route parameter selects the variant and
    with it the schema.  The request of a valid submission is selected by
    the normalized registration token: with a token it is registerUser
    with userInfo (firstname, lastname, password) and the token, without
    one it is registerAdmin with the flat body (firstname, lastname,
    email, password).  The invitation schema requires the token, so the
    register variant always sends registerUser. *)
Theorem C9_variant_selects_schema_and_token_selects_request
    isAdminRegistration hasAdmin submitCount data :
  Yup.validate (schema' isAdminRegistration) (normalizeData data) = [] ->
  Register (Some {| authType := Some "register-admin" |}) = RegisterForm true
  /\ Register (Some {| authType := Some "register" |}) = RegisterForm false
  /\ schema' true = REGISTER_ADMIN_SCHEMA translatedErrors rEmail
  /\ schema' false = REGISTER_USER_SCHEMA translatedErrors
  /\ List.filter isNetworkCall (onSubmit' isAdminRegistration hasAdmin submitCount data)
     = [ if hasToken data then CallRegisterUser (userBody data)
         else CallRegisterAdmin (adminBody data) ]
  /\ isAdminRegistration || hasToken data = true.
Proof.
  intros Hval. repeat split.
  - rewrite onSubmit_valid by done. rewrite List.filter_app.
    assert (Htrack : List.filter isNetworkCall
                       (trackSubmit isAdminRegistration submitCount) = []).
    { unfold trackSubmit. by destruct (_ && _). }
    rewrite Htrack. cbn [app].
    destruct (hasToken data).
    + apply handleRegisterUser_calls.
    + by rewrite handleRegisterAdmin_calls, adminArg_body.
  - destruct isAdminRegistration; [done|].
    cbn [orb]. by eapply user_schema_needs_token.
Qed.

(** C10.  When the registration-info query of the mounted view returns an
    error, a warning notification with the message of the error is shown
    and the view navigates to /auth/oops with that message URI-encoded in
    the info parameter; the message is [formatAPIError(error)] for a base
    query error and [error.message ?? ''] otherwise. *)
Theorem C10_registration_info_error_navigates_to_oops registrationToken error :
  queryError (useGetRegistrationInfoQuery getRegistrationInfo registrationToken)
  = Some error ->
  mountEffects formatAPIError isBaseQueryError getRegistrationInfo registrationToken
  = [ ToggleNotification "warning"
        (if isBaseQueryError error then formatAPIError error
         else default "" (error_message error));
      NavigateTo
        (ToString ("/auth/oops?info=" ++
                   encodeURIComponent
                     (if isBaseQueryError error then formatAPIError error
                      else default "" (error_message error)))%string) ].
Proof. intros Herr. unfold mountEffects. by rewrite Herr. Qed.

End Claims.

(** ** ResetPassword and the guards *)

(** C6.  With the query parameter code equal to abc123 and both password
    fields equal to Abcdef12, the form is rendered, the values pass the
    schema, and a submission calls resetPassword once, with the body
    [{ password: 'Abcdef12', resetPasswordToken: 'abc123' }], whatever the
    service answers. *)
Theorem C6_reset_password_dispatches_once
    (translatedErrors : TE.t)
    (resetPassword : ResetPasswordBody -> Response TokenData) :
  ResetPassword.ResetPassword (Some "abc123") = ResetPasswordForm
  /\ Yup.validate (RESET_PASSWORD_SCHEMA translatedErrors)
       (ResetPassword.toObject (ResetPassword.Build_FormValues "Abcdef12" "Abcdef12")) = []
  /\ ResetPassword.submit translatedErrors resetPassword (Some "abc123")
       (ResetPassword.Build_FormValues "Abcdef12" "Abcdef12")
     = ResetPassword.Submitted
         (ResetPassword.onSubmit resetPassword (Some "abc123")
            (ResetPassword.Build_FormValues "Abcdef12" "Abcdef12"))
  /\ List.filter isNetworkCall
       (ResetPassword.onSubmit resetPassword (Some "abc123")
          (ResetPassword.Build_FormValues "Abcdef12" "Abcdef12"))
     = [ CallResetPassword
           {| body_password := "Abcdef12"; resetPasswordToken := JString "abc123" |} ].
Proof.
  assert (Hval : Yup.validate (RESET_PASSWORD_SCHEMA translatedErrors)
                   (ResetPassword.toObject
                      (ResetPassword.Build_FormValues "Abcdef12" "Abcdef12")) = []).
  { by rewrite validate_RESET_PASSWORD_SCHEMA. }
  split; [done|]. split; [exact Hval|]. split.
  - unfold ResetPassword.submit, ResetPassword.Form_submit. by rewrite Hval.
  - unfold ResetPassword.onSubmit, ResetPassword.handleSubmit.
    cbn [List.filter isNetworkCall]. f_equal.
    by destruct (resetPassword _).
Qed.

(** C7.  The reset-password view without a code parameter (or with an
    empty one) returns the redirect to /auth/login, and the registration
    view without a match, or with a route parameter that is neither
    register nor register-admin, returns the redirect to /; in each case
    the form is not returned. *)
Theorem C7_guards_redirect (m : PathMatch) :
  authType m ≠ Some "register" ->
  authType m ≠ Some "register-admin" ->
  ResetPassword.ResetPassword None = Navigate "/auth/login"
  /\ ResetPassword.ResetPassword (Some "") = Navigate "/auth/login"
  /\ Register None = Navigate "/"
  /\ Register (Some m) = Navigate "/"
  /\ Navigate "/auth/login" ≠ ResetPasswordForm
  /\ forall isAdminRegistration, Navigate "/" ≠ RegisterForm isAdminRegistration.
Proof.
  intros Hregister Hadmin.
  split; [reflexivity|]. split; [reflexivity|]. split; [reflexivity|].
  split; [|by split].
  unfold Register.
  by rewrite !bool_decide_eq_false_2.
Qed.

(** C3, where the code departs from its description.  normalizeData
    stores the trimmed lastname and then overwrites it with
    [value || undefined], the value as typed: a lastname with surrounding
    spaces reaches the request untrimmed. *)
Theorem C3_normalizeData_keeps_lastname_untrimmed :
  get (normalizeData (Sample.values "Ada" " Doe " "ada@example.com"
                                    "Abcdef12" "Abcdef12" None false)) "lastname"
  = JString " Doe "
  /\ trim " Doe " = "Doe".
Proof. split; [by rewrite normalizeData_lastname | reflexivity]. Qed.

(** ** Concrete instances *)

Lemma C1_witness :
  Yup.validate (Sample.schemaOf true) (normalizeData Sample.invalid) ≠ []
  /\ exists errors,
      Sample.submit true None 0 Sample.invalid
      = [ SetErrors errors; SetSubmitCount (0 + 1) ]
      /\ errors ≠ ∅
      /\ (forall path,
            is_Some (errors !! path) <->
            path ∈ (Yup.validate (Sample.schemaOf true) (normalizeData Sample.invalid)).*1)
      /\ List.filter isNetworkCall (Sample.submit true None 0 Sample.invalid) = [].
Proof.
  assert (Hinv : Yup.validate (Sample.schemaOf true) (normalizeData Sample.invalid) ≠ []).
  { unfold Sample.schemaOf. rewrite validate_schema. vm_compute. discriminate. }
  split; [exact Hinv|].
  exact (C1_invalid_values_set_errors_and_send_nothing _ _ _ _ _ _ _ _ _ _ _ _ Hinv).
Defined.

Lemma C2_witness :
  failing (passwordChecks Sample.translatedErrors) (password Sample.weak) ≠ []
  /\ exists errors,
      Sample.submit true None 0 Sample.weak
      = [ SetErrors errors; SetSubmitCount (0 + 1) ]
      /\ errors !! "password"
         = Sample.formatMessage <$>
             last (failing (passwordChecks Sample.translatedErrors) (password Sample.weak)
                   ++ (if String.eqb (password Sample.weak) ""
                       then [msgPasswordRequired Sample.translatedErrors] else []))%list.
Proof.
  assert (Hfail : failing (passwordChecks Sample.translatedErrors) (password Sample.weak) ≠ []).
  { vm_compute. discriminate. }
  split; [exact Hfail|].
  exact (C2_last_failing_check_is_surfaced _ _ _ _ _ _ _ _ _ _ _ _ Hfail).
Defined.

(** C2, as the claim states it, fails: the password abc fails the length,
    upper-case and digit checks, and the message set for the field is that
    of the digit check, the last one, not that of the length check. *)
Lemma C2_first_failing_check_counterexample :
  failing (passwordChecks Sample.translatedErrors) (password Sample.weak)
  = [ msgMinLength Sample.translatedErrors; msgUppercase; msgNumber ]
  /\ exists errors,
      Sample.submit true None 0 Sample.weak
      = [ SetErrors errors; SetSubmitCount 1 ]
      /\ errors !! "password" = Some "Password must contain at least 1 number"
      /\ errors !! "password"
         ≠ Sample.formatMessage <$>
             head (failing (passwordChecks Sample.translatedErrors) (password Sample.weak)).
Proof.
  split; [reflexivity|].
  assert (Hlookup :
    fold_left (collectError Sample.formatMessage)
      (Yup.validate (Sample.schemaOf true) (normalizeData Sample.weak)) ∅ !! "password"
    = Some "Password must contain at least 1 number").
  { rewrite collect_lookup by done.
    unfold Sample.schemaOf. by rewrite validate_schema, objectsAt_password. }
  eexists. unfold Sample.submit. rewrite onSubmit_invalid.
  - split; [reflexivity|]. split; [exact Hlookup|].
    fold Sample.schemaOf. rewrite Hlookup. discriminate.
  - rewrite validate_schema. vm_compute. discriminate.
Qed.

Lemma C4_witness :
  Yup.validate (Sample.schemaOf true) (normalizeData Sample.admin) = []
  /\ (if hasToken Sample.admin
      then Sample.rejectUser (userBody Sample.admin) = ResError Sample.validationError
      else Sample.rejectAdmin (adminBody Sample.admin) = ResError Sample.validationError)
  /\ Sample.isBaseQueryError Sample.validationError = true
  /\ error_name Sample.validationError = Some "ValidationError"
  /\ Sample.submitRejected true None 0 Sample.admin
     = (trackSubmit true 0
        ++ [ (if hasToken Sample.admin then CallRegisterUser (userBody Sample.admin)
              else CallRegisterAdmin (adminBody Sample.admin));
             TrackUsage "didNotCreateFirstAdmin" [];
             SetErrors (Sample.formatValidationErrors Sample.validationError) ])%list
  /\ List.filter isSetErrors (Sample.submitRejected true None 0 Sample.admin)
     = [ SetErrors (Sample.formatValidationErrors Sample.validationError) ]
  /\ List.filter isNavigation (Sample.submitRejected true None 0 Sample.admin) = [].
Proof.
  assert (Hval : Yup.validate (Sample.schemaOf true) (normalizeData Sample.admin) = []).
  { unfold Sample.schemaOf. rewrite validate_schema. vm_compute. reflexivity. }
  assert (Hres : if hasToken Sample.admin
                 then Sample.rejectUser (userBody Sample.admin)
                      = ResError Sample.validationError
                 else Sample.rejectAdmin (adminBody Sample.admin)
                      = ResError Sample.validationError).
  { reflexivity. }
  split; [exact Hval|]. split; [exact Hres|]. split; [reflexivity|]. split; [reflexivity|].
  exact (C4_server_validation_error_sets_field_errors
           _ _ Sample.formatMessage _ _ _ _ _ _ None 0 _ _
           Hval Hres eq_refl eq_refl).
Defined.

Lemma C5_witness :
  Yup.validate (Sample.schemaOf true) (normalizeData Sample.admin) = []
  /\ hasToken Sample.admin = false
  /\ Sample.registerAdmin (adminBody Sample.admin) = ResData Sample.superAdmin
  /\ user_roles Sample.superAdmin = Some [ {| code := "strapi-super-admin" |} ]
  /\ {| code := "strapi-super-admin" |} ∈ [ {| code := "strapi-super-admin" |} ]
  /\ code {| code := "strapi-super-admin" |} = "strapi-super-admin"
  /\ Sample.submit true None 0 Sample.admin
     = (trackSubmit true 0
        ++ [ CallRegisterAdmin (adminBody Sample.admin);
             SetToken (admin_token Sample.superAdmin);
             AuthSetGuidedTourSkipped;
             SetSkipped false;
             TrackUsage "didLaunchGuidedtour" [] ]
        ++ (if news Sample.admin
            then [ EnableNpsSurvey; NavigateTo (ToPath "/usecase" "?hasAdmin=true") ]
            else [ NavigateTo (ToString "/") ]))%list.
Proof.
  assert (Hval : Yup.validate (Sample.schemaOf true) (normalizeData Sample.admin) = []).
  { unfold Sample.schemaOf. rewrite validate_schema. vm_compute. reflexivity. }
  assert (Hin : {| code := "strapi-super-admin" |} ∈ [ {| code := "strapi-super-admin" |} ]).
  { apply list_elem_of_here. }
  split; [exact Hval|]. split; [reflexivity|]. split; [reflexivity|].
  split; [reflexivity|]. split; [exact Hin|]. split; [reflexivity|].
  exact (C5_super_admin_registration_navigation
           Sample.translatedErrors Sample.rEmail Sample.formatMessage
           Sample.formatAPIError Sample.formatValidationErrors
           Sample.isBaseQueryError Sample.registerAdmin Sample.registerUser
           true None 0 Sample.admin Sample.superAdmin
           [ {| code := "strapi-super-admin" |} ] {| code := "strapi-super-admin" |}
           Hval eq_refl eq_refl eq_refl Hin eq_refl).
Defined.

Lemma C7_witness :
  authType {| authType := Some "login" |} ≠ Some "register"
  /\ authType {| authType := Some "login" |} ≠ Some "register-admin"
  /\ ResetPassword.ResetPassword None = Navigate "/auth/login"
  /\ ResetPassword.ResetPassword (Some "") = Navigate "/auth/login"
  /\ Register None = Navigate "/"
  /\ Register (Some {| authType := Some "login" |}) = Navigate "/"
  /\ Navigate "/auth/login" ≠ ResetPasswordForm
  /\ forall isAdminRegistration, Navigate "/" ≠ RegisterForm isAdminRegistration.
Proof.
  assert (Hregister : authType {| authType := Some "login" |} ≠ Some "register")
    by discriminate.
  assert (Hadmin : authType {| authType := Some "login" |} ≠ Some "register-admin")
    by discriminate.
  split; [exact Hregister|]. split; [exact Hadmin|].
  exact (C7_guards_redirect {| authType := Some "login" |} Hregister Hadmin).
Defined.

Lemma C8_witness :
  confirmPassword Sample.invalid ≠ password Sample.invalid
  /\ ("confirmPassword", Yup.MObject msgNoMatch)
       ∈ Yup.validate (Sample.schemaOf false) (normalizeData Sample.invalid)
  /\ ("confirmPassword", Yup.MObject msgNoMatch)
       ∈ Yup.validate (RESET_PASSWORD_SCHEMA Sample.translatedErrors)
           (ResetPassword.toObject
              {| ResetPassword.password := password Sample.invalid;
                 ResetPassword.confirmPassword := confirmPassword Sample.invalid |})
  /\ exists errors,
       Sample.submit false None 0 Sample.invalid
       = [ SetErrors errors; SetSubmitCount (0 + 1) ]
       /\ errors !! "confirmPassword" = Some (Sample.formatMessage msgNoMatch).
Proof.
  assert (Hne : confirmPassword Sample.invalid ≠ password Sample.invalid)
    by discriminate.
  split; [exact Hne|].
  exact (C8_confirmPassword_mismatch_is_invalid
           Sample.translatedErrors Sample.rEmail Sample.formatMessage
           Sample.formatAPIError Sample.formatValidationErrors
           Sample.isBaseQueryError Sample.registerAdmin Sample.registerUser
           false None 0 Sample.invalid Hne).
Defined.

Lemma C9_witness :
  Yup.validate (Sample.schemaOf false) (normalizeData Sample.invited) = []
  /\ Register (Some {| authType := Some "register-admin" |}) = RegisterForm true
  /\ Register (Some {| authType := Some "register" |}) = RegisterForm false
  /\ Sample.schemaOf true = REGISTER_ADMIN_SCHEMA Sample.translatedErrors Sample.rEmail
  /\ Sample.schemaOf false = REGISTER_USER_SCHEMA Sample.translatedErrors
  /\ List.filter isNetworkCall (Sample.submit false None 0 Sample.invited)
     = [ if hasToken Sample.invited then CallRegisterUser (userBody Sample.invited)
         else CallRegisterAdmin (adminBody Sample.invited) ]
  /\ false || hasToken Sample.invited = true.
Proof.
  assert (Hval : Yup.validate (Sample.schemaOf false) (normalizeData Sample.invited) = []).
  { unfold Sample.schemaOf. rewrite validate_schema. vm_compute. reflexivity. }
  split; [exact Hval|].
  exact (C9_variant_selects_schema_and_token_selects_request
           Sample.translatedErrors Sample.rEmail Sample.formatMessage
           Sample.formatAPIError Sample.formatValidationErrors
           Sample.isBaseQueryError Sample.registerAdmin Sample.registerUser
           false None 0 Sample.invited Hval).
Defined.

(** C9, as the claim states it, fails: the register-admin variant, opened
    with a registrationToken query parameter, validates against the admin
    schema and then sends registerUser, not registerAdmin. *)
Lemma C9_register_admin_with_token_counterexample :
  Register (Some {| authType := Some "register-admin" |}) = RegisterForm true
  /\ registrationToken
       (initialValues None (Some "tok")) = Some "tok"
  /\ registrationToken Sample.invited = Some "tok"
  /\ Yup.validate (Sample.schemaOf true) (normalizeData Sample.invited) = []
  /\ List.filter isNetworkCall (Sample.submit true None 0 Sample.invited)
     = [ CallRegisterUser (userBody Sample.invited) ].
Proof.
  assert (Hval : Yup.validate (Sample.schemaOf true) (normalizeData Sample.invited) = []).
  { unfold Sample.schemaOf. rewrite validate_schema. vm_compute. reflexivity. }
  split; [reflexivity|]. split; [reflexivity|]. split; [reflexivity|].
  split; [exact Hval|].
  unfold Sample.submit. rewrite onSubmit_valid by exact Hval.
  rewrite List.filter_app. cbn [trackSubmit Nat.ltb Nat.leb andb List.filter app].
  change (hasToken Sample.invited) with true. cbn iota.
  apply handleRegisterUser_calls.
Qed.

Lemma C10_witness :
  queryError (useGetRegistrationInfoQuery Sample.getRegistrationInfo (Some "tok"))
  = Some {| error_name := Some "ApplicationError"; error_message := Some "bad token" |}
  /\ mountEffects Sample.formatAPIError Sample.isBaseQueryError
       Sample.getRegistrationInfo (Some "tok")
     = [ ToggleNotification "warning" "bad token";
         NavigateTo (ToString "/auth/oops?info=bad%20token") ].
Proof.
  split; [reflexivity|].
  exact (C10_registration_info_error_navigates_to_oops
           Sample.formatAPIError Sample.isBaseQueryError Sample.getRegistrationInfo
           (Some "tok") _ eq_refl).
Defined.

(** * Further properties of the two files *)

Lemma at_nil path ms : at_ path ms = [] <-> ms = [].
Proof. unfold at_. split; [by destruct ms | by intros ->]. Qed.

Lemma failing_nil chain s :
  failing chain s = [] <-> forallb (fun c => c.2 s) chain = true.
Proof.
  unfold failing. induction chain as [|c chain IH]; cbn; [done|].
  destruct (c.2 s); cbn; [exact IH | done].
Qed.

(** X1.  normalizeData returns an object with the seven keys of the form:
    firstname, email and registrationToken trimmed (an absent token stays
    undefined), password, confirmPassword and news unchanged, and lastname
    undefined when it is empty and otherwise exactly as typed. *)
Theorem X1_normalizeData_values data :
  normalizeData data =
  list_to_map
    [ ("firstname", JString (trim (firstname data)));
      ("lastname", if String.eqb (lastname data) "" then JUndefined
                   else JString (lastname data));
      ("email", JString (trim (email data)));
      ("password", JString (password data));
      ("confirmPassword", JString (confirmPassword data));
      ("registrationToken", optString (trim <$> registrationToken data));
      ("news", JBool (news data)) ].
Proof.
  rewrite normalizeData_unfold. cbn [list_to_map foldr uncurry fst snd].
  assert (Hln : JS.or (JString (lastname data)) JUndefined
                = if String.eqb (lastname data) "" then JUndefined
                  else JString (lastname data)).
  { unfold JS.or, toBoolean. by destruct (String.eqb (lastname data) ""). }
  rewrite Hln.
  assert (Ht : match registrationToken data with
               | Some t => JString (trim t) | None => JUndefined end
               = optString (trim <$> registrationToken data)).
  { by destruct (registrationToken data). }
  rewrite Ht.
  apply map_eq; intros k;
  repeat first [rewrite lookup_insert | rewrite lookup_delete | rewrite lookup_empty];
  repeat case_decide; subst; try done.
Qed.

Lemma normalizeStep_insert acc key value :
  normalizeStep acc (key, value) = <[key := normalizeValue key value]> acc.
Proof.
  unfold normalizeStep, normalizeValue.
  destruct (negb (isPasswordKey key) && isString value); [|done].
  destruct (String.eqb key "lastname"); [|done].
  by rewrite insert_insert_eq.
Qed.

Lemma normalizeEntries_lookup es : forall acc key,
  fold_left normalizeStep es acc !! key
  = match last (List.filter (fun kv => String.eqb kv.1 key) es) with
    | Some kv => Some (normalizeValue key kv.2)
    | None => acc !! key
    end.
Proof.
  induction es as [|[k v] es IH] using rev_ind; intros acc key; [done|].
  rewrite fold_left_app, List.filter_app. cbn [fold_left List.filter fst].
  rewrite normalizeStep_insert.
  destruct (String.eqb_spec k key) as [-> | Hne].
  - by rewrite last_snoc, lookup_insert_eq.
  - rewrite app_nil_r, lookup_insert_ne by done. apply IH.
Qed.

Lemma normalizeEntries_by_key (es : list (string * jsval)) key :
  NoDup es.*1 ->
  normalizeEntries es !! key = normalizeValue key <$> (list_to_map es : gmap string jsval) !! key.
Proof.
  intros Hnodup. unfold normalizeEntries. rewrite normalizeEntries_lookup.
  induction es as [|[k v] es IH]; [done|].
  apply NoDup_cons in Hnodup as [Hk Hnodup]. specialize (IH Hnodup).
  cbn [List.filter fst list_to_map foldr]. cbn [uncurry fst snd].
  destruct (String.eqb_spec k key) as [-> | Hne].
  - rewrite lookup_insert_eq. cbn.
    assert (Hnone : List.filter (fun kv : string * jsval => String.eqb kv.1 key) es = []).
    { clear IH Hnodup. induction es as [|[k' v'] es IHes]; [done|].
      cbn in Hk. apply not_elem_of_cons in Hk as [Hk1 Hk2]. cbn.
      destruct (String.eqb_spec k' key); [congruence | by apply IHes]. }
    by rewrite Hnone.
  - rewrite lookup_insert_ne by done. exact IH.
Qed.

(** X2.  For the entries of any object (no key twice), the reducer of
    normalizeData stores under each key the value of that key, trimmed when
    it is a string and the key is neither password nor confirmPassword
    (for lastname: the value itself, or undefined when it is falsy), and
    unchanged otherwise (booleans, undefined, the two passwords); a key
    that the object lacks is not added. *)
Theorem X2_normalizeEntries_by_key (es : list (string * jsval)) key :
  NoDup es.*1 ->
  normalizeEntries es !! key
  = normalizeValue key <$> (list_to_map es : gmap string jsval) !! key.
Proof. apply normalizeEntries_by_key. Qed.

(** X3.  The result of the reduce does not depend on the order in which
    Object.entries lists the keys. *)
Theorem X3_normalizeEntries_order (es es' : list (string * jsval)) :
  NoDup es.*1 -> es ≡ₚ es' -> normalizeEntries es = normalizeEntries es'.
Proof.
  intros Hnodup Hperm. apply map_eq. intros key.
  rewrite !normalizeEntries_by_key; [|by rewrite <- Hperm|done].
  by rewrite (list_to_map_proper es es' Hnodup Hperm).
Qed.

Section Extras.

Variable translatedErrors : TE.t.
Variable rEmail : string -> bool.
Variable formatMessage : Yup.MessageDescriptor -> string.
Variable formatAPIError : QueryError -> string.
Variable formatValidationErrors : QueryError -> gmap string string.
Variable isBaseQueryError : QueryError -> bool.
Variable registerAdmin : gmap string jsval -> Response RegisterAdminData.
Variable registerUser : RegisterUserBody -> Response TokenData.
Variable getRegistrationInfo : string -> Response RegistrationInfo.
Variable resetPassword : ResetPasswordBody -> Response TokenData.

Local Abbreviation onSubmit' :=
  (onSubmit translatedErrors rEmail formatMessage formatAPIError
            formatValidationErrors isBaseQueryError registerAdmin registerUser).
Local Abbreviation schema' := (schema translatedErrors rEmail).

(** X4.  The cast that yup applies before it validates leaves the
    normalized values as they are, under every key and for either schema:
    what is validated is what the request is built from. *)
Theorem X4_validation_sees_the_values_that_are_sent isAdminRegistration data key :
  get (Yup.castObject (schema' isAdminRegistration) (normalizeData data)) key
  = get (normalizeData data) key.
Proof.
  rewrite get_castObject.
  destruct isAdminRegistration;
    cbn [schema REGISTER_ADMIN_SCHEMA REGISTER_USER_SCHEMA Yup.castLookup];
    repeat match goal with
           | |- context [String.eqb key ?k] =>
               destruct (String.eqb_spec key k) as [-> | ?]
           end;
    rewrite ?normalizeData_firstname, ?normalizeData_lastname, ?normalizeData_email,
      ?normalizeData_password, ?normalizeData_confirmPassword,
      ?normalizeData_registrationToken';
    try reflexivity; try congruence.
  all: try (change (Yup.castValue _ (JString (trim (firstname data))))
              with (JString (trim (trim (firstname data)))); by rewrite trim_idem).
  all: try by destruct (String.eqb (lastname data) "").
  all: try by destruct (registrationToken data).
Qed.

Lemma passwordChain_nil pw :
  failing (passwordChain translatedErrors) pw = [] <-> passwordOk pw = true.
Proof.
  rewrite failing_nil. unfold passwordOk.
  cbn -[Nat.leb notEmpty String.length].
  destruct pw as [|c pw]; [by cbn|].
  change (notEmpty (String c pw)) with true.
  by destruct (Nat.leb 8 _), (re_lowercase _), (re_uppercase _), (re_digit _).
Qed.

Lemma confirmPasswordErrors_nil pw cp :
  confirmPasswordErrors translatedErrors pw cp = [] <-> cp = pw /\ cp ≠ "".
Proof.
  unfold confirmPasswordErrors, failing, notEmpty. cbn.
  destruct (String.eqb_spec pw cp) as [-> | Hne]; cbn.
  - destruct (String.eqb_spec cp ""); cbn; [by split; [|intros [_ ?]] | done].
  - split; [done | by intros [-> _]].
Qed.

Lemma emailChain_nil s :
  failing (emailChain translatedErrors rEmail) s = [] <-> emailOk rEmail s = true.
Proof.
  rewrite failing_nil. unfold emailOk.
  cbn -[notEmpty toLowerCase String.eqb].
  destruct s as [|c s].
  - change (notEmpty "") with false. by rewrite !andb_false_r.
  - change (notEmpty (String c s)) with true.
    change (String.eqb (String c s) "") with false.
    by destruct (rEmail _), (String.eqb _ _).
Qed.

Lemma tokenErrors_nil data :
  tokenErrors translatedErrors (trim <$> registrationToken data) = [] <->
  hasToken data = true.
Proof.
  unfold hasToken. destruct (registrationToken data) as [t|]; cbn; [|done].
  unfold failing, notEmpty. cbn. by destruct (String.eqb (trim t) "").
Qed.

Lemma firstnameErrors_nil fn :
  failing [(msgFirstnameRequired translatedErrors, notEmpty)] fn = [] <-> fn ≠ "".
Proof. unfold failing, notEmpty. cbn. by destruct (String.eqb_spec fn ""). Qed.

Lemma valid_registration_values isAdminRegistration data :
  Yup.validate (schema' isAdminRegistration) (normalizeData data) = [] <->
  trim (firstname data) ≠ ""
  /\ passwordOk (password data) = true
  /\ confirmPassword data = password data
  /\ (if isAdminRegistration then emailOk rEmail (trim (email data))
      else hasToken data) = true.
Proof.
  rewrite validate_schema. unfold registerErrors. split.
  - intros H.
    apply app_eq_nil in H as [Hfn H]. apply app_eq_nil in H as [Hpw H].
    apply app_eq_nil in H as [Hcp Hlast].
    apply at_nil, firstnameErrors_nil in Hfn. apply at_nil, passwordChain_nil in Hpw.
    apply at_nil, confirmPasswordErrors_nil in Hcp as [Hcp _].
    repeat split; try done.
    destruct isAdminRegistration; apply at_nil in Hlast;
      [by apply emailChain_nil | by apply tokenErrors_nil].
  - intros (Hfn & Hpw & Hcp & Hlast).
    apply firstnameErrors_nil in Hfn. apply passwordChain_nil in Hpw as Hpw'.
    assert (Hcp' : confirmPasswordErrors translatedErrors (password data)
                     (confirmPassword data) = []).
    { apply confirmPasswordErrors_nil. split; [done|].
      intros Hempty. rewrite Hempty in Hcp. by rewrite <- Hcp in Hpw. }
    rewrite Hfn, Hpw', Hcp'. cbn [at_ fmap list_fmap app].
    destruct isAdminRegistration; apply at_nil;
      [by apply emailChain_nil | by apply tokenErrors_nil].
Qed.

(** X5.  The normalized registration values pass the schema of the
    variant exactly when the trimmed firstname is not empty, the password
    has at least 8 characters, a lower-case letter, an upper-case letter
    and a digit, confirmPassword equals password, and, for the admin
    variant, the trimmed email is not empty, is lower-case and matches the
    email pattern, or, for the register variant, the trimmed registration
    token is not empty.  lastname and news never matter. *)
Theorem X5_valid_registration_values isAdminRegistration data :
  Yup.validate (schema' isAdminRegistration) (normalizeData data) = [] <->
  trim (firstname data) ≠ ""
  /\ passwordOk (password data) = true
  /\ confirmPassword data = password data
  /\ (if isAdminRegistration then emailOk rEmail (trim (email data))
      else hasToken data) = true.
Proof. apply valid_registration_values. Qed.

(** X6.  The reset-password values pass RESET_PASSWORD_SCHEMA exactly when
    the password, as typed, has at least 8 characters, a lower-case letter,
    an upper-case letter and a digit, and confirmPassword equals it. *)
Theorem X6_valid_reset_values values :
  Yup.validate (RESET_PASSWORD_SCHEMA translatedErrors) (ResetPassword.toObject values) = []
  <-> passwordOk (ResetPassword.password values) = true
      /\ ResetPassword.confirmPassword values = ResetPassword.password values.
Proof.
  rewrite validate_RESET_PASSWORD_SCHEMA. split.
  - intros H. apply app_eq_nil in H as [Hpw Hcp].
    apply at_nil, passwordChain_nil in Hpw.
    by apply at_nil, confirmPasswordErrors_nil in Hcp as [Hcp _].
  - intros (Hpw & Hcp).
    apply passwordChain_nil in Hpw as Hpw'. rewrite Hpw'.
    cbn [at_ fmap list_fmap app]. apply at_nil, confirmPasswordErrors_nil.
    split; [done|]. intros Hempty. rewrite Hempty in Hcp. by rewrite <- Hcp in Hpw.
Qed.

(** X7.  Every error of a registration submission is at firstname,
    password, confirmPassword, or at email (admin variant) or
    registrationToken (register variant); no value of lastname is ever
    reported. *)
Theorem X7_error_paths_are_schema_fields (isAdminRegistration : bool) data :
  Forall (fun e : string * Yup.Message =>
            e.1 ∈ [ "firstname"; "password"; "confirmPassword";
                    if isAdminRegistration then "email" else "registrationToken" ])
         (Yup.validate (schema' isAdminRegistration) (normalizeData data))
  /\ "lastname" ∉ (Yup.validate (schema' isAdminRegistration) (normalizeData data)).*1.
Proof.
  assert (Hall : Forall (fun e : string * Yup.Message =>
            e.1 ∈ [ "firstname"; "password"; "confirmPassword";
                    if isAdminRegistration then "email" else "registrationToken" ])
         (Yup.validate (schema' isAdminRegistration) (normalizeData data))).
  { rewrite validate_schema. unfold registerErrors. rewrite !Forall_app.
    repeat split.
    - eapply Forall_impl; [apply at_paths|]. intros e ->. apply list_elem_of_here.
    - eapply Forall_impl; [apply at_paths|]. intros e ->.
      apply list_elem_of_further, list_elem_of_here.
    - eapply Forall_impl; [apply at_paths|]. intros e ->.
      do 2 apply list_elem_of_further. apply list_elem_of_here.
    - destruct isAdminRegistration;
        (eapply Forall_impl; [apply at_paths|]); intros e ->;
        do 3 apply list_elem_of_further; apply list_elem_of_here. }
  split; [exact Hall|].
  intros H. apply list_elem_of_fmap in H as (e & He & Hin).
  rewrite Forall_forall in Hall. specialize (Hall e Hin). rewrite <- He in Hall.
  destruct isAdminRegistration;
    repeat (apply elem_of_cons in Hall as [Hall|Hall]; [discriminate Hall|]);
    by apply elem_of_nil in Hall.
Qed.

(** X9.  The reducer of the catch block, on any [err.inner]: under each
    path that is not empty the map holds the formatted message of the last
    error of that path whose message is an object; errors with a string
    message or an empty path add nothing. *)
Theorem X9_catch_reducer_keeps_last_object_message
    (inner : list (string * Yup.Message)) (path : string) :
  fold_left (collectError formatMessage) inner ∅ !! path
  = if String.eqb path "" then None
    else formatMessage <$> last (objectsAt path inner).
Proof.
  destruct (String.eqb_spec path "") as [-> | Hne].
  - by rewrite collect_lookup_empty.
  - rewrite collect_lookup by done. by destruct (last _).
Qed.

Lemma objectsAt_registerErrors isAdminRegistration data path :
  objectsAt path (registerErrors translatedErrors rEmail isAdminRegistration data)
  = ((if String.eqb "firstname" path
      then failing [(msgFirstnameRequired translatedErrors, notEmpty)]
             (trim (firstname data)) else [])
     ++ (if String.eqb "password" path
         then failing (passwordChain translatedErrors) (password data) else [])
     ++ (if String.eqb "confirmPassword" path
         then confirmPasswordErrors translatedErrors (password data)
                (confirmPassword data) else [])
     ++ (if isAdminRegistration
         then if String.eqb "email" path
              then failing (emailChain translatedErrors rEmail) (trim (email data))
              else []
         else if String.eqb "registrationToken" path
              then tokenErrors translatedErrors (trim <$> registrationToken data)
              else []))%list.
Proof.
  unfold registerErrors. rewrite !objectsAt_app.
  destruct isAdminRegistration; by rewrite !objectsAt_at.
Qed.

(** X8.  The messages that an invalid registration submission sets:
    firstname is required when it is blank; confirmPassword must match
    when it differs from password and is required when both are empty;
    email (admin variant) is required when blank, else must be lower-case,
    else must match the pattern; registrationToken (register variant) is
    required when blank; lastname has none. *)
Theorem X8_field_messages isAdminRegistration hasAdmin submitCount data :
  Yup.validate (schema' isAdminRegistration) (normalizeData data) ≠ [] ->
  exists errors,
    onSubmit' isAdminRegistration hasAdmin submitCount data
    = [ SetErrors errors; SetSubmitCount (submitCount + 1) ]
    /\ errors !! "firstname"
       = (if String.eqb (trim (firstname data)) ""
          then Some (formatMessage (msgFirstnameRequired translatedErrors)) else None)
    /\ errors !! "lastname" = None
    /\ errors !! "confirmPassword"
       = (if negb (String.eqb (password data) (confirmPassword data))
          then Some (formatMessage msgNoMatch)
          else if String.eqb (confirmPassword data) ""
               then Some (formatMessage (msgConfirmRequired translatedErrors))
               else None)
    /\ errors !! "email"
       = (if isAdminRegistration
          then if String.eqb (trim (email data)) ""
               then Some (formatMessage (msgEmailRequired translatedErrors))
               else if negb (String.eqb (trim (email data)) (toLowerCase (trim (email data))))
                    then Some (formatMessage (msgEmailLowercase translatedErrors))
                    else if rEmail (trim (email data)) then None
                         else Some (formatMessage (msgEmail translatedErrors))
          else None)
    /\ errors !! "registrationToken"
       = (if isAdminRegistration then None
          else if hasToken data then None
               else Some (formatMessage (msgTokenRequired translatedErrors))).
Proof.
  intros Hinv. eexists. rewrite onSubmit_invalid by done.
  split; [reflexivity|].
  rewrite !collect_lookup by done.
  rewrite validate_schema, !objectsAt_registerErrors.
  unfold hasToken.
  destruct isAdminRegistration, (registrationToken data) as [t|];
    cbn [String.eqb Ascii.eqb Bool.eqb app fmap option_fmap option_map optString toBoolean];
    rewrite ?app_nil_r;
    unfold confirmPasswordErrors, tokenErrors, failing, emailChain, notEmpty;
    cbn [List.filter fmap list_fmap fst snd negb last];
    repeat match goal with
           | |- context [String.eqb ?a ?b] => destruct (String.eqb a b)
           end;
    cbn [negb andb orb List.filter fmap list_fmap fst snd last];
    try destruct (rEmail _);
    cbn [negb andb orb List.filter fmap list_fmap fst snd last];
    by rewrite ?lookup_empty.
Qed.

(** X10.  Submitting the form with its initial values, whatever the
    registration info and token it was opened with, sends nothing: the
    password fields start empty, so the submission only sets errors, with
    the required messages for password and confirmPassword. *)
Theorem X10_untouched_form_is_not_submitted
    isAdminRegistration hasAdmin submitCount userInfo registrationToken :
  exists errors,
    onSubmit' isAdminRegistration hasAdmin submitCount
              (initialValues userInfo registrationToken)
    = [ SetErrors errors; SetSubmitCount (submitCount + 1) ]
    /\ errors !! "password"
       = Some (formatMessage (msgPasswordRequired translatedErrors))
    /\ errors !! "confirmPassword"
       = Some (formatMessage (msgConfirmRequired translatedErrors)).
Proof.
  eexists. rewrite onSubmit_invalid.
  - split; [reflexivity|].
    rewrite !collect_lookup by done.
    rewrite validate_schema, objectsAt_password, objectsAt_confirmPassword.
    by split.
  - rewrite validate_schema. apply (objectsAt_nonempty "password").
    by rewrite objectsAt_password.
Qed.

(** A valid submission, spelled out. *)
Lemma onSubmit_valid_explicit isAdminRegistration hasAdmin submitCount data :
  Yup.validate (schema' isAdminRegistration) (normalizeData data) = [] ->
  onSubmit' isAdminRegistration hasAdmin submitCount data
  = (trackSubmit isAdminRegistration submitCount
     ++ (if hasToken data
         then CallRegisterUser (userBody data) ::
              match registerUser (userBody data) with
              | ResData d =>
                  SetToken (token d) ::
                  (if news data
                   then [ EnableNpsSurvey;
                          NavigateTo (ToPath "/usecase"
                                        ("?hasAdmin=" ++ templateBool hasAdmin)) ]
                   else [ NavigateTo (ToString "/") ])
              | ResError error =>
                  if isBaseQueryError error then
                    TrackUsage "didNotCreateFirstAdmin" [] ::
                    (if bool_decide (error_name error = Some "ValidationError")
                     then [ SetErrors (formatValidationErrors error) ]
                     else [ SetApiError (formatAPIError error) ])
                  else []
              end
         else CallRegisterAdmin (adminBody data) ::
              match registerAdmin (adminBody data) with
              | ResData d =>
                  SetToken (admin_token d) ::
                  match user_roles d with
                  | Some roles =>
                      match findSuperAdmin roles with
                      | Some _ => [ AuthSetGuidedTourSkipped; SetSkipped false;
                                    TrackUsage "didLaunchGuidedtour" [] ]
                      | None => []
                      end
                  | None => []
                  end ++
                  (if news data
                   then [ EnableNpsSurvey;
                          NavigateTo (ToPath "/usecase" "?hasAdmin=true") ]
                   else [ NavigateTo (ToString "/") ])
              | ResError error =>
                  if isBaseQueryError error then
                    TrackUsage "didNotCreateFirstAdmin" [] ::
                    (if bool_decide (error_name error = Some "ValidationError")
                     then [ SetErrors (formatValidationErrors error) ]
                     else [ SetApiError (formatAPIError error) ])
                  else []
              end))%list.
Proof.
  intros Hval. rewrite onSubmit_valid by done.
  destruct (hasToken data); [reflexivity|].
  unfold handleRegisterAdmin. by rewrite adminArg_body, adminArg_news.
Qed.

Ltac submit_cases Hval :=
  rewrite (onSubmit_valid_explicit _ _ _ _ Hval);
  unfold trackSubmit, responseToken, responseError, request;
  destruct (Nat.ltb 0 _ && _), (hasToken _);
  repeat match goal with
         | |- context [match registerUser ?b with _ => _ end] =>
             destruct (registerUser b) as [?d|?e]
         | |- context [match registerAdmin ?b with _ => _ end] =>
             destruct (registerAdmin b) as [?d|?e]
         | |- context [match user_roles ?d with _ => _ end] =>
             destruct (user_roles d) as [?roles|]
         | |- context [match findSuperAdmin ?r with _ => _ end] =>
             destruct (findSuperAdmin r)
         | |- context [if isBaseQueryError ?e then _ else _] =>
             destruct (isBaseQueryError e)
         | |- context [bool_decide ?P] => destruct (bool_decide P)
         | |- context [if news ?d then _ else _] => destruct (news d)
         end.

(** X11.  A registration submission stores a token, enables the survey
    or navigates only when the values are valid and the service answers
    with data: then the token of the answer is stored first, the survey is
    enabled only if news is checked, and the navigation goes to /usecase
    (with hasAdmin=true in the admin flow and the hasAdmin prop in the
    invitation flow) when news is checked and to / otherwise.  In every
    other case none of the three happens. *)
Theorem X11_outcome_only_on_success isAdminRegistration hasAdmin submitCount data :
  List.filter isOutcome (onSubmit' isAdminRegistration hasAdmin submitCount data)
  = match Yup.validate (schema' isAdminRegistration) (normalizeData data),
          responseToken registerAdmin registerUser data with
    | [], Some t =>
        SetToken t ::
        (if news data
         then [ EnableNpsSurvey;
                NavigateTo (ToPath "/usecase"
                              ("?hasAdmin=" ++
                               templateBool (if hasToken data then hasAdmin
                                             else Some true))) ]
         else [ NavigateTo (ToString "/") ])
    | _, _ => []
    end.
Proof.
  destruct (Yup.validate (schema' isAdminRegistration) (normalizeData data))
    as [|e inner] eqn:Hval.
  - submit_cases Hval; reflexivity.
  - rewrite onSubmit_invalid by (rewrite Hval; discriminate). reflexivity.
Qed.

Local Abbreviation handleRegisterAdmin' :=
  (handleRegisterAdmin formatAPIError formatValidationErrors isBaseQueryError
                       registerAdmin).
Local Abbreviation handleRegisterUser' :=
  (handleRegisterUser formatAPIError formatValidationErrors isBaseQueryError
                      registerUser).
Local Abbreviation onSubmitRun' :=
  (onSubmitRun translatedErrors rEmail formatMessage formatAPIError
               formatValidationErrors isBaseQueryError registerAdmin registerUser).

Lemma filter_take_nil {A} (P : A -> bool) (l : list A) k :
  List.filter P l = [] -> List.filter P (take k l) = [].
Proof.
  revert k. induction l as [|x l IH]; intros k Hl; [by destruct k|].
  destruct k as [|k]; [done|]. cbn in *.
  destruct (P x); [done | by apply IH].
Qed.

Lemma handleRegisterAdmin_no_count arg :
  List.filter isAttemptCount (handleRegisterAdmin' arg) = [].
Proof.
  unfold handleRegisterAdmin. cbn [List.filter isAttemptCount].
  destruct (registerAdmin _) as [d|e].
  - cbn [List.filter isAttemptCount]. rewrite List.filter_app.
    destruct (user_roles d) as [roles|]; [destruct (findSuperAdmin roles)|];
      by destruct (toBoolean _).
  - destruct (isBaseQueryError e); [|done]. by case_bool_decide.
Qed.

Lemma handleRegisterUser_no_count hasAdmin body news :
  List.filter isAttemptCount (handleRegisterUser' hasAdmin body news) = [].
Proof.
  unfold handleRegisterUser. cbn [List.filter isAttemptCount].
  destruct (registerUser _) as [d|e].
  - by destruct (toBoolean _).
  - destruct (isBaseQueryError e); [|done]. by case_bool_decide.
Qed.

Lemma onSubmitRun_None isAdminRegistration hasAdmin submitCount data :
  onSubmitRun' None isAdminRegistration hasAdmin submitCount data
  = onSubmit translatedErrors rEmail formatMessage formatAPIError
             formatValidationErrors isBaseQueryError registerAdmin registerUser
             isAdminRegistration hasAdmin submitCount data.
Proof. reflexivity. Qed.

Lemma onSubmitRun_invalid thrown isAdminRegistration hasAdmin submitCount data :
  Yup.validate (schema' isAdminRegistration) (normalizeData data) ≠ [] ->
  onSubmitRun' thrown isAdminRegistration hasAdmin submitCount data
  = [ SetErrors (fold_left (collectError formatMessage)
                   (Yup.validate (schema' isAdminRegistration) (normalizeData data)) ∅);
      SetSubmitCount (submitCount + 1) ].
Proof. intros Hinv. unfold onSubmitRun. by destruct (Yup.validate _ _). Qed.

Lemma onSubmitRun_thrown k isAdminRegistration hasAdmin submitCount data :
  Yup.validate (schema' isAdminRegistration) (normalizeData data) = [] ->
  onSubmitRun' (Some k) isAdminRegistration hasAdmin submitCount data
  = if Nat.ltb k (length (trackSubmit isAdminRegistration submitCount))
    then (take k (trackSubmit isAdminRegistration submitCount)
          ++ [ SetSubmitCount (submitCount + 1) ])%list
    else if hasToken data
         then (trackSubmit isAdminRegistration submitCount
               ++ take (k - length (trackSubmit isAdminRegistration submitCount))
                    (handleRegisterUser' hasAdmin (userBody data) (JBool (news data))))%list
         else (trackSubmit isAdminRegistration submitCount
               ++ take (k - length (trackSubmit isAdminRegistration submitCount))
                    (handleRegisterAdmin' (adminArg data))
               ++ [ SetSubmitCount (submitCount + 1) ])%list.
Proof.
  intros Hval. unfold onSubmitRun. rewrite Hval.
  rewrite omit_admin, omit_user, normalizeData_news, normalizeData_registrationToken'.
  reflexivity.
Qed.

(** X14.  The attempt counter, over every run of onSubmit, including the
    runs in which a step of the try block throws: it is incremented when
    the client-side validation fails, and when trackUsage or the awaited
    handleRegisterAdmin throws; it is not incremented when the service
    answers a valid submission, with data or with an error, nor when the
    handleRegisterUser that is not awaited throws.  The event
    didSubmitWithErrorsFirstAdmin is tracked for a valid submission of the
    admin variant after at least one counted attempt, unless that very
    call throws. *)
Theorem X14_attempts_counted_on_validation_errors_and_exceptions
    thrown isAdminRegistration hasAdmin submitCount data :
  List.filter isAttemptCount
    (onSubmitRun' thrown isAdminRegistration hasAdmin submitCount data)
  = match Yup.validate (schema' isAdminRegistration) (normalizeData data) with
    | [] =>
        match thrown with
        | None => trackSubmit isAdminRegistration submitCount
        | Some k =>
            if Nat.ltb k (length (trackSubmit isAdminRegistration submitCount))
            then [ SetSubmitCount (submitCount + 1) ]
            else (trackSubmit isAdminRegistration submitCount
                  ++ (if hasToken data then []
                      else [ SetSubmitCount (submitCount + 1) ]))%list
        end
    | _ => [ SetSubmitCount (submitCount + 1) ]
    end.
Proof.
  destruct (Yup.validate (schema' isAdminRegistration) (normalizeData data))
    as [|e inner] eqn:Hval.
  - assert (Htrack : List.filter isAttemptCount
                       (trackSubmit isAdminRegistration submitCount)
                     = trackSubmit isAdminRegistration submitCount).
    { unfold trackSubmit. by destruct (_ && _). }
    destruct thrown as [k|].
    + rewrite (onSubmitRun_thrown _ _ _ _ _ Hval).
      destruct (Nat.ltb k (length (trackSubmit isAdminRegistration submitCount)))
        eqn:Hk.
      * assert (Htake : take k (trackSubmit isAdminRegistration submitCount) = []).
        { unfold trackSubmit in *. destruct (_ && _); [|by destruct k].
          destruct k; [done|]. cbn in Hk. discriminate Hk. }
        by rewrite Htake.
      * destruct (hasToken data).
        -- rewrite List.filter_app, Htrack. f_equal.
           apply filter_take_nil, handleRegisterUser_no_count.
        -- rewrite !List.filter_app, Htrack. f_equal.
           by rewrite (filter_take_nil _ _ _ (handleRegisterAdmin_no_count _)).
    + rewrite onSubmitRun_None, (onSubmit_valid _ _ _ _ _ _ _ _ _ _ _ _ Hval).
      rewrite List.filter_app, Htrack.
      destruct (hasToken data);
        by rewrite ?handleRegisterUser_no_count, ?handleRegisterAdmin_no_count, app_nil_r.
  - rewrite onSubmitRun_invalid by (rewrite Hval; discriminate). reflexivity.
Qed.


(** X12.  What a registration submission reports as an error: the
    collected field errors when validation fails; for a valid submission,
    the field errors of the service when it answers with a base query
    error named ValidationError, the formatted API error as the banner for
    any other base query error, and nothing at all for an error that is not
    a base query error or for a success. *)
Theorem X12_error_report_of_a_submission
    isAdminRegistration hasAdmin submitCount data :
  List.filter isErrorReport (onSubmit' isAdminRegistration hasAdmin submitCount data)
  = match Yup.validate (schema' isAdminRegistration) (normalizeData data) with
    | [] =>
        match responseError registerAdmin registerUser data with
        | Some error =>
            if isBaseQueryError error
            then if bool_decide (error_name error = Some "ValidationError")
                 then [ SetErrors (formatValidationErrors error) ]
                 else [ SetApiError (formatAPIError error) ]
            else []
        | None => []
        end
    | inner => [ SetErrors (fold_left (collectError formatMessage) inner ∅) ]
    end.
Proof.
  destruct (Yup.validate (schema' isAdminRegistration) (normalizeData data))
    as [|e inner] eqn:Hval.
  - submit_cases Hval; reflexivity.
  - rewrite onSubmit_invalid by (rewrite Hval; discriminate). by rewrite Hval.
Qed.

(** X13.  The guided tour is launched (the skipped flag cleared and the
    event tracked) exactly when a valid submission without a token is
    answered by registerAdmin with data whose roles hold a role of code
    strapi-super-admin; never in the invitation flow, on an error, or
    without such a role. *)
Theorem X13_guided_tour_only_for_super_admin
    isAdminRegistration hasAdmin submitCount data :
  List.filter isGuidedTour (onSubmit' isAdminRegistration hasAdmin submitCount data)
  = match Yup.validate (schema' isAdminRegistration) (normalizeData data),
          hasToken data, registerAdmin (adminBody data) with
    | [], false, ResData d =>
        match user_roles d ≫= findSuperAdmin with
        | Some _ => [ AuthSetGuidedTourSkipped; SetSkipped false;
                      TrackUsage "didLaunchGuidedtour" [] ]
        | None => []
        end
    | _, _, _ => []
    end.
Proof.
  destruct (Yup.validate (schema' isAdminRegistration) (normalizeData data))
    as [|e inner] eqn:Hval.
  - rewrite (onSubmit_valid_explicit _ _ _ _ Hval). unfold trackSubmit.
    destruct (Nat.ltb 0 _ && _), (hasToken _).
    all: try (destruct (registerUser _) as [d|err];
              [by destruct (news data)
              |destruct (isBaseQueryError err); [by case_bool_decide | done]]).
    all: destruct (registerAdmin _) as [d|err];
      [ destruct (user_roles d) as [roles|]; cbn [mbind option_bind];
        [destruct (findSuperAdmin roles)|]; by destruct (news data)
      | destruct (isBaseQueryError err); [by case_bool_decide | done] ].
  - rewrite onSubmit_invalid by (rewrite Hval; discriminate). reflexivity.
Qed.

Lemma network_calls isAdminRegistration hasAdmin submitCount data :
  List.filter isNetworkCall (onSubmit' isAdminRegistration hasAdmin submitCount data)
  = match Yup.validate (schema' isAdminRegistration) (normalizeData data) with
    | [] => [ request data ]
    | _ => []
    end.
Proof.
  destruct (Yup.validate (schema' isAdminRegistration) (normalizeData data))
    as [|e inner] eqn:Hval.
  - submit_cases Hval; reflexivity.
  - rewrite onSubmit_invalid by (rewrite Hval; discriminate). reflexivity.
Qed.

Lemma adminBody_dom data :
  dom (adminBody data) = list_to_set ["firstname"; "lastname"; "email"; "password"].
Proof. unfold adminBody. by rewrite !dom_insert_L, dom_empty_L. Qed.

Lemma userInfo_dom data :
  dom (userInfo (userBody data)) = list_to_set ["firstname"; "lastname"; "password"].
Proof. unfold userBody, userInfo. by rewrite !dom_insert_L, dom_empty_L. Qed.

Lemma call_sent isAdminRegistration hasAdmin submitCount data e :
  e ∈ onSubmit' isAdminRegistration hasAdmin submitCount data ->
  isNetworkCall e = true ->
  Yup.validate (schema' isAdminRegistration) (normalizeData data) = []
  /\ e = request data.
Proof.
  intros Hin Hcall.
  assert (Hf : e ∈ List.filter isNetworkCall
                     (onSubmit' isAdminRegistration hasAdmin submitCount data)).
  { apply list_elem_of_In, filter_In. split; [by apply list_elem_of_In | done]. }
  rewrite network_calls in Hf.
  destruct (Yup.validate _ _); [|by apply elem_of_nil in Hf].
  split; [done|]. by apply list_elem_of_singleton in Hf.
Qed.

(** X15.  Every registerAdmin request that a submission sends comes from
    the admin variant and carries exactly firstname, lastname, email and
    password (no confirmPassword, registrationToken or news): the trimmed
    firstname, not empty; the trimmed email, lower-case and matching the
    pattern; the password as typed, satisfying the password rule. *)
Theorem X15_registerAdmin_request isAdminRegistration hasAdmin submitCount data body :
  CallRegisterAdmin body ∈ onSubmit' isAdminRegistration hasAdmin submitCount data ->
  isAdminRegistration = true
  /\ body = adminBody data
  /\ dom body = list_to_set ["firstname"; "lastname"; "email"; "password"]
  /\ body !! "firstname" = Some (JString (trim (firstname data)))
  /\ trim (firstname data) ≠ ""
  /\ body !! "email" = Some (JString (trim (email data)))
  /\ emailOk rEmail (trim (email data)) = true
  /\ body !! "password" = Some (JString (password data))
  /\ passwordOk (password data) = true.
Proof.
  intros Hin.
  destruct (call_sent _ _ _ _ _ Hin eq_refl) as [Hval Hreq].
  unfold request in Hreq. destruct (hasToken data) eqn:Htok; [discriminate Hreq|].
  injection Hreq as ->.
  assert (Hadmin : isAdminRegistration = true).
  { destruct isAdminRegistration; [done|].
    apply user_schema_needs_token in Hval. congruence. }
  subst isAdminRegistration.
  apply valid_registration_values in Hval as (Hfn & Hpw & Hcp & Hem).
  split; [done|]. split; [done|]. split; [apply adminBody_dom|].
  unfold adminBody. by simplify_map_eq.
Qed.

(** X16.  Every registerUser request that a submission sends carries a
    userInfo with exactly firstname, lastname and password (no email,
    confirmPassword or news), the trimmed firstname not empty, the password
    as typed and satisfying the password rule, and as registrationToken
    the trimmed token of the form, which is not empty. *)
Theorem X16_registerUser_request isAdminRegistration hasAdmin submitCount data body :
  CallRegisterUser body ∈ onSubmit' isAdminRegistration hasAdmin submitCount data ->
  body = userBody data
  /\ dom (userInfo body) = list_to_set ["firstname"; "lastname"; "password"]
  /\ userInfo body !! "firstname" = Some (JString (trim (firstname data)))
  /\ trim (firstname data) ≠ ""
  /\ userInfo body !! "password" = Some (JString (password data))
  /\ passwordOk (password data) = true
  /\ exists t, registrationToken data = Some t
               /\ trim t ≠ ""
               /\ body_registrationToken body = JString (trim t).
Proof.
  intros Hin.
  destruct (call_sent _ _ _ _ _ Hin eq_refl) as [Hval Hreq].
  unfold request in Hreq. destruct (hasToken data) eqn:Htok; [|discriminate Hreq].
  injection Hreq as ->.
  apply valid_registration_values in Hval as (Hfn & Hpw & Hcp & Hlast).
  split; [done|]. split; [apply userInfo_dom|].
  unfold userBody, userInfo, body_registrationToken.
  split; [by simplify_map_eq|]. split; [done|].
  split; [by simplify_map_eq|]. split; [done|].
  unfold hasToken in Htok. destruct (registrationToken data) as [t|]; [|done].
  exists t. repeat split. cbn in Htok.
  intros Hempty. by rewrite Hempty in Htok.
Qed.

(** X17.  Mounting the registration view notifies and navigates only when
    a registration token that is not empty was given and the
    registration-info query for it returned an error: without a token,
    with an empty one, or on a successful query nothing happens. *)
Theorem X17_mount_without_error_has_no_effect registrationToken :
  mountEffects formatAPIError isBaseQueryError getRegistrationInfo registrationToken ≠ []
  <-> exists t error,
        registrationToken = Some t /\ t ≠ ""
        /\ getRegistrationInfo t = ResError error.
Proof.
  unfold mountEffects, useGetRegistrationInfoQuery, registrationInfoEffect.
  destruct registrationToken as [t|]; cbn.
  - destruct (String.eqb_spec t "") as [-> | Hne]; cbn.
    + split; [done | by intros (? & ? & [= <-] & ? & _)].
    + destruct (getRegistrationInfo t) as [info|error] eqn:Hres; cbn.
      * split; [done|]. intros (t' & error & [= <-] & _ & Hres'). congruence.
      * split; [|done]. intros _. by exists t, error.
  - split; [done | by intros (? & ? & ? & _)].
Qed.

(** X18.  Whenever the reset-password form is rendered, the code
    parameter is a string that is not empty, and a submission sends
    resetPassword with the password exactly as typed and that code as
    resetPasswordToken (never null).  On data the token is stored and the
    view navigates to /.  On an error handleSubmit does nothing more (no
    token, no navigation) and the view shows the error of the mutation as
    an alert: [formatAPIError(error)] for a base query error, the message
    An error occurred otherwise. *)
Theorem X18_reset_request code values :
  ResetPassword.ResetPassword code = ResetPasswordForm ->
  exists s,
    code = Some s /\ s ≠ ""
    /\ ResetPassword.onSubmit resetPassword code values
       = CallResetPassword {| body_password := ResetPassword.password values;
                              resetPasswordToken := JString s |}
         :: match resetPassword {| body_password := ResetPassword.password values;
                                   resetPasswordToken := JString s |} with
            | ResData d => [ SetToken (token d); NavigateTo (ToString "/") ]
            | ResError _ => []
            end
    /\ errorAlert formatMessage formatAPIError isBaseQueryError
         (mutationError
            (Some (resetPassword {| body_password := ResetPassword.password values;
                                    resetPasswordToken := JString s |})))
       = match resetPassword {| body_password := ResetPassword.password values;
                                resetPasswordToken := JString s |} with
         | ResData _ => None
         | ResError error =>
             Some (if isBaseQueryError error then formatAPIError error
                   else formatMessage (msg "notification.error" "An error occurred"))
         end.
Proof.
  unfold ResetPassword.ResetPassword. destruct code as [s|]; cbn; [|done].
  destruct (String.eqb_spec s "") as [-> | Hne]; cbn; [done|].
  intros _. exists s. split; [done|]. split; [done|]. split; [done|].
  by destruct (resetPassword _).
Qed.

End Extras.

(** ** Concrete instances of the further properties *)

Lemma request_sent te rEmail fm fae fve ibq ra ru isAdminRegistration hasAdmin
    submitCount data :
  Yup.validate (schema te rEmail isAdminRegistration) (normalizeData data) = [] ->
  request data ∈ onSubmit te rEmail fm fae fve ibq ra ru isAdminRegistration hasAdmin
                          submitCount data.
Proof.
  intros Hval.
  assert (Hin : request data
                ∈ List.filter isNetworkCall
                    (onSubmit te rEmail fm fae fve ibq ra ru isAdminRegistration
                              hasAdmin submitCount data)).
  { rewrite network_calls, Hval. apply list_elem_of_here. }
  apply list_elem_of_In, filter_In in Hin as [Hin _]. by apply list_elem_of_In.
Qed.

Lemma X2_witness :
  NoDup (entries Sample.admin).*1
  /\ normalizeEntries (entries Sample.admin) !! "firstname"
     = normalizeValue "firstname"
         <$> (list_to_map (entries Sample.admin) : gmap string jsval) !! "firstname".
Proof.
  assert (Hnodup : NoDup (entries Sample.admin).*1).
  { apply (bool_decide_unpack _). vm_compute. exact I. }
  split; [exact Hnodup|].
  exact (X2_normalizeEntries_by_key (entries Sample.admin) "firstname" Hnodup).
Defined.

Lemma X3_witness :
  NoDup (entries Sample.admin).*1
  /\ entries Sample.admin ≡ₚ rev (entries Sample.admin)
  /\ normalizeEntries (entries Sample.admin)
     = normalizeEntries (rev (entries Sample.admin)).
Proof.
  assert (Hnodup : NoDup (entries Sample.admin).*1).
  { apply (bool_decide_unpack _). vm_compute. exact I. }
  assert (Hperm : entries Sample.admin ≡ₚ rev (entries Sample.admin)).
  { apply Permutation_rev. }
  split; [exact Hnodup|]. split; [exact Hperm|].
  exact (X3_normalizeEntries_order _ _ Hnodup Hperm).
Defined.

Lemma X8_witness :
  Yup.validate (Sample.schemaOf true) (normalizeData Sample.invalid) ≠ []
  /\ exists errors,
      Sample.submit true None 0 Sample.invalid
      = [ SetErrors errors; SetSubmitCount (0 + 1) ]
      /\ errors !! "firstname" = None
      /\ errors !! "lastname" = None
      /\ errors !! "confirmPassword" = Some "Passwords must match"
      /\ errors !! "email" = None
      /\ errors !! "registrationToken" = None.
Proof.
  assert (Hinv : Yup.validate (Sample.schemaOf true) (normalizeData Sample.invalid) ≠ []).
  { unfold Sample.schemaOf. rewrite validate_schema. vm_compute. discriminate. }
  split; [exact Hinv|].
  exact (X8_field_messages Sample.translatedErrors Sample.rEmail Sample.formatMessage
           Sample.formatAPIError Sample.formatValidationErrors Sample.isBaseQueryError
           Sample.registerAdmin Sample.registerUser true None 0 Sample.invalid Hinv).
Defined.

Lemma X15_witness :
  CallRegisterAdmin (adminBody Sample.admin) ∈ Sample.submit true None 0 Sample.admin
  /\ true = true
  /\ adminBody Sample.admin = adminBody Sample.admin
  /\ dom (adminBody Sample.admin)
     = list_to_set ["firstname"; "lastname"; "email"; "password"]
  /\ adminBody Sample.admin !! "firstname"
     = Some (JString (trim (firstname Sample.admin)))
  /\ trim (firstname Sample.admin) ≠ ""
  /\ adminBody Sample.admin !! "email" = Some (JString (trim (email Sample.admin)))
  /\ emailOk Sample.rEmail (trim (email Sample.admin)) = true
  /\ adminBody Sample.admin !! "password" = Some (JString (password Sample.admin))
  /\ passwordOk (password Sample.admin) = true.
Proof.
  assert (Hval : Yup.validate (Sample.schemaOf true) (normalizeData Sample.admin) = []).
  { unfold Sample.schemaOf. rewrite validate_schema. vm_compute. reflexivity. }
  assert (Hin : CallRegisterAdmin (adminBody Sample.admin)
                ∈ Sample.submit true None 0 Sample.admin).
  { exact (request_sent _ _ _ _ _ _ _ _ true None 0 Sample.admin Hval). }
  split; [exact Hin|].
  exact (X15_registerAdmin_request Sample.translatedErrors Sample.rEmail
           Sample.formatMessage Sample.formatAPIError Sample.formatValidationErrors
           Sample.isBaseQueryError Sample.registerAdmin Sample.registerUser
           true None 0 Sample.admin (adminBody Sample.admin) Hin).
Defined.

Lemma X16_witness :
  CallRegisterUser (userBody Sample.invited) ∈ Sample.submit false None 0 Sample.invited
  /\ userBody Sample.invited = userBody Sample.invited
  /\ dom (userInfo (userBody Sample.invited))
     = list_to_set ["firstname"; "lastname"; "password"]
  /\ userInfo (userBody Sample.invited) !! "firstname"
     = Some (JString (trim (firstname Sample.invited)))
  /\ trim (firstname Sample.invited) ≠ ""
  /\ userInfo (userBody Sample.invited) !! "password"
     = Some (JString (password Sample.invited))
  /\ passwordOk (password Sample.invited) = true
  /\ exists t, registrationToken Sample.invited = Some t
               /\ trim t ≠ ""
               /\ body_registrationToken (userBody Sample.invited) = JString (trim t).
Proof.
  assert (Hval : Yup.validate (Sample.schemaOf false) (normalizeData Sample.invited) = []).
  { unfold Sample.schemaOf. rewrite validate_schema. vm_compute. reflexivity. }
  assert (Hin : CallRegisterUser (userBody Sample.invited)
                ∈ Sample.submit false None 0 Sample.invited).
  { exact (request_sent _ _ _ _ _ _ _ _ false None 0 Sample.invited Hval). }
  split; [exact Hin|].
  exact (X16_registerUser_request Sample.translatedErrors Sample.rEmail
           Sample.formatMessage Sample.formatAPIError Sample.formatValidationErrors
           Sample.isBaseQueryError Sample.registerAdmin Sample.registerUser
           false None 0 Sample.invited (userBody Sample.invited) Hin).
Defined.

Lemma X18_witness :
  ResetPassword.ResetPassword (Some "abc123") = ResetPasswordForm
  /\ exists s,
      Some "abc123" = Some s /\ s ≠ ""
      /\ ResetPassword.onSubmit Sample.rejectReset (Some "abc123")
           (ResetPassword.Build_FormValues " Abcdef12 " " Abcdef12 ")
         = CallResetPassword {| body_password := " Abcdef12 ";
                                resetPasswordToken := JString s |}
           :: match Sample.rejectReset {| body_password := " Abcdef12 ";
                                          resetPasswordToken := JString s |} with
              | ResData d => [ SetToken (token d); NavigateTo (ToString "/") ]
              | ResError _ => []
              end
      /\ errorAlert Sample.formatMessage Sample.formatAPIError Sample.isBaseQueryError
           (mutationError
              (Some (Sample.rejectReset {| body_password := " Abcdef12 ";
                                           resetPasswordToken := JString s |})))
         = match Sample.rejectReset {| body_password := " Abcdef12 ";
                                       resetPasswordToken := JString s |} with
           | ResData _ => None
           | ResError error =>
               Some (if Sample.isBaseQueryError error then Sample.formatAPIError error
                     else Sample.formatMessage
                            (msg "notification.error" "An error occurred"))
           end.
Proof.
  split; [reflexivity|].
  exact (X18_reset_request Sample.formatMessage Sample.formatAPIError
           Sample.isBaseQueryError Sample.rejectReset (Some "abc123")
           (ResetPassword.Build_FormValues " Abcdef12 " " Abcdef12 ") eq_refl).
Defined.

(** ** The values as typed and the normalized values *)

Section Typed.

Variable translatedErrors : TE.t.
Variable rEmail : string -> bool.

Local Abbreviation schema' := (schema translatedErrors rEmail).

Lemma submittedValues_get data key :
  get (submittedValues data) key
  = if String.eqb key "firstname" then JString (firstname data)
    else if String.eqb key "lastname" then JString (lastname data)
    else if String.eqb key "email" then JString (email data)
    else if String.eqb key "password" then JString (password data)
    else if String.eqb key "confirmPassword" then JString (confirmPassword data)
    else if String.eqb key "registrationToken" then optString (registrationToken data)
    else if String.eqb key "news" then JBool (news data)
    else JUndefined.
Proof.
  unfold submittedValues, entries. cbn [list_to_map foldr uncurry fst snd].
  repeat match goal with
         | |- context [String.eqb key ?k] =>
             destruct (String.eqb_spec key k) as [-> | ?]
         end;
    by rewrite ?get_insert_eq, ?get_insert_ne, ?get_empty by done.
Qed.

(** The errors of the values as typed: yup's own cast trims firstname, the
    email and the token are taken as they are. *)
Lemma validate_submittedValues isAdminRegistration data :
  Yup.validate (schema' isAdminRegistration) (submittedValues data)
  = (at_ "firstname" (failing [ (msgFirstnameRequired translatedErrors, notEmpty) ]
                              (trim (firstname data)))
     ++ at_ "password" (failing (passwordChain translatedErrors) (password data))
     ++ at_ "confirmPassword"
          (confirmPasswordErrors translatedErrors (password data) (confirmPassword data))
     ++ (if isAdminRegistration
         then at_ "email" (failing (emailChain translatedErrors rEmail) (email data))
         else at_ "registrationToken"
                (tokenErrors translatedErrors (registrationToken data))))%list.
Proof.
  assert (Hfn : forall s parent,
    Yup.validateField
      (Yup.string |> Yup.trim |> Yup.required (msgFirstnameRequired translatedErrors))
      (Yup.castValue
         (Yup.string |> Yup.trim |> Yup.required (msgFirstnameRequired translatedErrors))
         (JString s)) parent
    = Yup.MObject <$> failing [ (msgFirstnameRequired translatedErrors, notEmpty) ] (trim s)).
  { intros s parent.
    change (Yup.castValue _ (JString s)) with (JString (trim s)).
    rewrite <- (trim_idem s) at 1. apply validate_firstnameField. }
  destruct isAdminRegistration.
  - unfold Yup.validate, schema, REGISTER_ADMIN_SCHEMA. cbn [flat_map].
    pose proof (get_castObject (REGISTER_ADMIN_SCHEMA translatedErrors rEmail)
                  (submittedValues data)) as Hget.
    unfold REGISTER_ADMIN_SCHEMA in Hget.
    remember (Yup.castObject _ _) as parent eqn:Hparent. clear Hparent.
    rewrite !Hget. cast_lookup. rewrite !submittedValues_get.
    cbn [String.eqb Ascii.eqb Bool.eqb].
    rewrite Hfn, validate_passwordField, validate_emailField.
    rewrite (validate_confirmPasswordField translatedErrors (password data)).
    2:{ rewrite Hget. cast_lookup. by rewrite submittedValues_get. }
    rewrite !at_fmap. by rewrite app_nil_r.
  - unfold Yup.validate, schema, REGISTER_USER_SCHEMA. cbn [flat_map].
    pose proof (get_castObject (REGISTER_USER_SCHEMA translatedErrors)
                  (submittedValues data)) as Hget.
    unfold REGISTER_USER_SCHEMA in Hget.
    remember (Yup.castObject _ _) as parent eqn:Hparent. clear Hparent.
    rewrite !Hget. cast_lookup. rewrite !submittedValues_get.
    cbn [String.eqb Ascii.eqb Bool.eqb].
    rewrite Hfn, validate_passwordField, validate_tokenField.
    rewrite (validate_confirmPasswordField translatedErrors (password data)).
    2:{ rewrite Hget. cast_lookup. by rewrite submittedValues_get. }
    rewrite !at_fmap. by rewrite app_nil_r.
Qed.

(** Values that fail as typed also fail once normalized, in the register
    variant always and in the admin variant whenever no white space
    surrounds the email. *)
Lemma typed_failure_survives_normalization (isAdminRegistration : bool) data :
  (if isAdminRegistration then trim (email data) = email data else True) ->
  Yup.validate (schema' isAdminRegistration) (submittedValues data) ≠ [] ->
  Yup.validate (schema' isAdminRegistration) (normalizeData data) ≠ [].
Proof.
  intros Hemail Htyped Hnorm. apply Htyped. clear Htyped.
  rewrite validate_schema in Hnorm. unfold registerErrors in Hnorm.
  rewrite validate_submittedValues.
  apply app_eq_nil in Hnorm as [Hfn Hnorm]. apply app_eq_nil in Hnorm as [Hpw Hnorm].
  apply app_eq_nil in Hnorm as [Hcp Hlast].
  rewrite Hfn, Hpw, Hcp. cbn [app].
  destruct isAdminRegistration.
  - by rewrite <- Hemail.
  - apply at_nil. apply at_nil in Hlast.
    destruct (registrationToken data) as [t|]; [|done].
    cbn in *. unfold failing, notEmpty in *. cbn in *.
    destruct (String.eqb_spec t "") as [-> | Hne]; [done|].
    done.
Qed.

End Typed.

(** C1, as the claim states it, fails: the values of the first
    administrator with a space typed after the email address fail the admin
    schema as they were submitted (the email is not valid), but onSubmit
    trims them first, the trimmed values pass, and registerAdmin is sent. *)
Lemma C1_typed_values_counterexample :
  Yup.validate (schema Sample.translatedErrors Sample.rEmailNoSpace true)
    (submittedValues Sample.padded)
  = [ ("email", Yup.MObject (msgEmail Sample.translatedErrors)) ]
  /\ Yup.validate (schema Sample.translatedErrors Sample.rEmailNoSpace true)
       (normalizeData Sample.padded) = []
  /\ List.filter isNetworkCall
       (onSubmit Sample.translatedErrors Sample.rEmailNoSpace Sample.formatMessage
                 Sample.formatAPIError Sample.formatValidationErrors
                 Sample.isBaseQueryError Sample.registerAdmin Sample.registerUser
                 true None 0 Sample.padded)
     = [ CallRegisterAdmin (adminBody Sample.padded) ]
  /\ adminBody Sample.padded !! "email" = Some (JString "ada@example.com").
Proof.
  assert (Hval : Yup.validate (schema Sample.translatedErrors Sample.rEmailNoSpace true)
                   (normalizeData Sample.padded) = []).
  { rewrite validate_schema. vm_compute. reflexivity. }
  split; [vm_compute; reflexivity|]. split; [exact Hval|]. split.
  - rewrite network_calls, Hval. reflexivity.
  - vm_compute. reflexivity.
Qed.
